(** * Verification of the FTP storage adapter

    Shallow embedding of [storage_backend_ftp/components/ftp_adapter.py]:
    the path helpers of [os.path] it relies on, the exception classes its
    handlers discriminate, the [ftplib] client as an interface over an
    abstract connection state, and the adapter's own functions
    ([ftp_mkdirs], [ImplicitFTPTLS.sock], [ftp], [add], [get], [list],
    [move_files], [delete], [validate_config]) as programs in a
    state-and-exception monad. *)

From Stdlib Require Import ZArith Ascii.
From Stdlib.Strings Require Import Byte.
From stdpp Require Import base option list strings gmap.

Local Open Scope Z_scope.

(** ** Byte strings and text strings *)

Abbreviation bytes := (list byte).

(** ** [os.path] (posixpath) on [str] *)

Module os_path.

Definition sep : ascii := "/"%char.

Definition is_sep (c : ascii) : bool := Ascii.eqb c sep.

(** [p[:i]] and [p[i:]] for [i = p.rfind(sep) + 1]. *)
Fixpoint split_rfind (p : string) : string * string :=
  match p with
  | EmptyString => (EmptyString, EmptyString)
  | String c p' =>
      let '(h, t) := split_rfind p' in
      match h with
      | EmptyString =>
          if is_sep c then (String c EmptyString, t) else (EmptyString, String c t)
      | String _ _ => (String c h, t)
      end
  end.

(** [head != sep * len(head)] is the negation of this test. *)
Fixpoint all_sep (p : string) : bool :=
  match p with
  | EmptyString => true
  | String c p' => is_sep c && all_sep p'
  end.

(** [str.rstrip(sep)] *)
Fixpoint rstrip (p : string) : string :=
  match p with
  | EmptyString => EmptyString
  | String c p' =>
      match rstrip p' with
      | EmptyString => if is_sep c then EmptyString else String c EmptyString
      | String _ _ as r => String c r
      end
  end.

Definition nonempty (p : string) : bool :=
  match p with EmptyString => false | String _ _ => true end.

(** [posixpath.dirname]:
    [head = p[:i]; if head and head != sep*len(head): head = head.rstrip(sep)] *)
Definition dirname (p : string) : string :=
  let head := fst (split_rfind p) in
  if nonempty head && negb (all_sep head) then rstrip head else head.

(** [posixpath.basename]: [p[i:]] *)
Definition basename (p : string) : string := snd (split_rfind p).

Definition startswith_sep (p : string) : bool :=
  match p with String c _ => is_sep c | EmptyString => false end.

Fixpoint endswith_sep (p : string) : bool :=
  match p with
  | EmptyString => false
  | String c EmptyString => is_sep c
  | String _ p' => endswith_sep p'
  end.

(** [posixpath.join(a, b)] with one component [b]. *)
Definition join (a b : string) : string :=
  if startswith_sep b then b
  else if negb (nonempty a) || endswith_sep a then a +:+ b
  else a +:+ "/" +:+ b.

End os_path.

(** ** Exceptions

    The classes the adapter's [except] clauses tell apart.  [IOError] is
    Python 3's alias of [OSError]; [ftplib.Error] is the base class of
    [error_reply], [error_temp], [error_perm] and [error_proto] and is not an
    [OSError].  [FileNotFoundError] is the exception [get] builds: a member
    of the [OSError] family whose [errno] is [None] when it is built from a
    single message. *)

Inductive exn : Type :=
  | OSError (errno : option Z) (strerror : string)
  | FtplibError (reply : string)
  | EOFError
  | UserError (msg : string)
  | ValueError (msg : string) (cause : option exn)
  | FileNotFoundError (msg : string) (cause : option exn)
  | RuntimeError (msg : string).

Definition isinstance_OSError (e : exn) : bool :=
  match e with
  | OSError _ _ | FileNotFoundError _ _ => true
  | _ => false
  end.

Definition isinstance_ftplib_Error (e : exn) : bool :=
  match e with FtplibError _ => true | _ => false end.

Definition exn_errno (e : exn) : option Z :=
  match e with OSError n _ => n | _ => None end.

(** [errno.ENOENT] *)
Definition ENOENT : Z := 2.

(** [e.errno == errno.ENOENT] *)
Definition errno_is_ENOENT (e : exn) : bool :=
  match exn_errno e with Some n => Z.eqb n ENOENT | None => false end.

(** ** The monad of adapter code

    A computation runs against a connection state [St]; it returns, raises,
    or (for the one recursive function, run with fuel) does not finish. *)

Inductive outcome (A : Type) : Type :=
  | Return (a : A)
  | Raise (e : exn)
  | Diverge.
Arguments Return {A} a.
Arguments Raise {A} e.
Arguments Diverge {A}.

Definition M (St A : Type) : Type := St → outcome A * St.

Definition ret {St A} (a : A) : M St A := fun s => (Return a, s).
Definition raise {St A} (e : exn) : M St A := fun s => (Raise e, s).
Definition diverge {St A} : M St A := fun s => (Diverge, s).

Definition bind {St A B} (m : M St A) (k : A → M St B) : M St B :=
  fun s =>
    match m s with
    | (Return a, s') => k a s'
    | (Raise e, s') => (Raise e, s')
    | (Diverge, s') => (Diverge, s')
    end.

(** [try: m  except ... as e: h e]; a handler that does not match re-raises. *)
Definition try_except {St A} (m : M St A) (h : exn → M St A) : M St A :=
  fun s =>
    match m s with
    | (Raise e, s') => h e s'
    | r => r
    end.

Declare Scope py_scope.
Delimit Scope py_scope with py.
Notation "x <- m ;; k" := (bind m (fun x => k))
  (at level 100, m at next level, right associativity) : py_scope.
Notation "m ;; k" := (bind m (fun _ => k))
  (at level 100, right associativity) : py_scope.
Local Open Scope py_scope.

(** ** The [ftplib] client

    A method of the client returns or raises; what it does to the
    connection, and to whatever is behind it, is a change of the state. *)

Inductive reply (A : Type) : Type :=
  | Ok (a : A)
  | Err (e : exn).
Arguments Ok {A} a.
Arguments Err {A} e.

Definition Op (St A : Type) : Type := St → reply A * St.

(** Calling a method from adapter code. *)
Definition perform {St A} (op : Op St A) : M St A :=
  fun s =>
    match op s with
    | (Ok a, s') => (Return a, s')
    | (Err e, s') => (Raise e, s')
    end.

(** One record per client object: the methods the adapter calls.
    [do_exit] is [FTP.__exit__], and [do_set_ssl_version] the assignment to
    the attribute [ssl_version]. *)
Record FTP (St : Type) : Type := {
  do_set_ssl_version : Z → St → St;
  do_connect : string → Z → Op St unit;
  do_login : string → string → Op St unit;
  do_prot_p : Op St unit;
  do_set_pasv : bool → Op St unit;
  do_getwelcome : Op St string;
  do_mkd : string → Op St unit;
  do_cwd : string → Op St unit;
  do_storbinary : string → bytes → Op St unit;
  do_retrbinary : string → Op St (list bytes);
  do_nlst : string → Op St (list string);
  do_delete : string → Op St string;
  do_rename : string → string → Op St unit;
  do_exit : St → St
}.
Arguments do_set_ssl_version {St}.
Arguments do_connect {St}.
Arguments do_login {St}.
Arguments do_prot_p {St}.
Arguments do_set_pasv {St}.
Arguments do_getwelcome {St}.
Arguments do_mkd {St}.
Arguments do_cwd {St}.
Arguments do_storbinary {St}.
Arguments do_retrbinary {St}.
Arguments do_nlst {St}.
Arguments do_delete {St}.
Arguments do_rename {St}.
Arguments do_exit {St}.

Section Methods.
Context {St : Type} (client : FTP St).

Definition connect (host : string) (port : Z) : M St unit :=
  perform (do_connect client host port).
Definition login (user passwd : string) : M St unit :=
  perform (do_login client user passwd).
Definition prot_p : M St unit := perform (do_prot_p client).
Definition set_pasv (val : bool) : M St unit := perform (do_set_pasv client val).
Definition getwelcome : M St string := perform (do_getwelcome client).
Definition mkd (dirname : string) : M St unit := perform (do_mkd client dirname).
Definition cwd (dirname : string) : M St unit := perform (do_cwd client dirname).
Definition storbinary (cmd : string) (fp : bytes) : M St unit :=
  perform (do_storbinary client cmd fp).
Definition retrbinary (cmd : string) : M St (list bytes) :=
  perform (do_retrbinary client cmd).
Definition nlst (arg : string) : M St (list string) := perform (do_nlst client arg).
Definition delete (filename : string) : M St string :=
  perform (do_delete client filename).
Definition rename (fromname toname : string) : M St unit :=
  perform (do_rename client fromname toname).
End Methods.

(** The three classes [ftp] instantiates. *)
Inductive ftp_class : Type :=
  | FTP_cls
  | ImplicitFTPTLS_cls
  | FTP_TLS_cls.

(** ** [ftp_mkdirs] *)

Section Mkdirs.
Context {St : Type}.

(** Python recurses without bound; [fuel] bounds the depth of the model
    and [Diverge] is what an exhausted bound yields. *)
Fixpoint ftp_mkdirs (fuel : nat) (client : FTP St) (path : string) : M St unit :=
  match fuel with
  | O => diverge
  | S fuel' =>
      try_except (mkd client path)
        (fun e =>
           if isinstance_OSError e then
             if errno_is_ENOENT e && os_path.nonempty path then
               ftp_mkdirs fuel' client (os_path.dirname path) ;;
               mkd client path
             else raise e
           else raise e)
  end.
End Mkdirs.

(** ** [ImplicitFTPTLS]: the [sock] property *)

Module ImplicitFTPTLS.

(** A socket object: the connection it stands for and, for an
    [ssl.SSLSocket], the context that wrapped it. *)
Record socket : Type := { fileno : Z; wrapped_by : option Z }.

(** [isinstance(value, ssl.SSLSocket)] *)
Definition isinstance_SSLSocket (v : socket) : bool :=
  match wrapped_by v with Some _ => true | None => false end.

(** The instance attributes the property touches: [self.context] (set by
    [ftplib.FTP_TLS.__init__]) and [self._sock]. *)
Record t : Type := { context : Z; _sock : option socket }.

Section Sock.
(** [ssl.SSLContext.wrap_socket] performs the handshake, which may
    raise; [handshake ctx v] is the exception, if any. *)
Variable handshake : Z → socket → option exn.

Definition wrap_socket (ctx : Z) (v : socket) : outcome socket :=
  match handshake ctx v with
  | Some e => Raise e
  | None => Return {| fileno := fileno v; wrapped_by := Some ctx |}
  end.

(** [__init__]: [super().__init__(...)] then [self._sock = None]. *)
Definition __init__ (ctx : Z) : t := {| context := ctx; _sock := None |}.

(** The getter. *)
Definition sock (self : t) : option socket := _sock self.

(** The setter:
    [if value is not None and not isinstance(value, ssl.SSLSocket):
         value = self.context.wrap_socket(value)
     self._sock = value] *)
Definition sock_setter (self : t) (value : option socket) : outcome unit * t :=
  match value with
  | Some v =>
      if negb (isinstance_SSLSocket v) then
        match wrap_socket (context self) v with
        | Return w => (Return tt, {| context := context self; _sock := Some w |})
        | Raise e => (Raise e, self)
        | Diverge => (Diverge, self)
        end
      else (Return tt, {| context := context self; _sock := Some v |})
  | None => (Return tt, {| context := context self; _sock := None |})
  end.

(** A run of assignments; one that raises leaves the object as it was. *)
Definition assign_all (self : t) (values : list (option socket)) : t :=
  foldl (fun o v => snd (sock_setter o v)) self values.

(** The stored socket is absent or TLS-wrapped. *)
Definition sock_is_secure (self : t) : Prop :=
  match sock self with
  | None => True
  | Some v => isinstance_SSLSocket v = true
  end.
End Sock.

End ImplicitFTPTLS.

(** ** Backend configuration and the security table *)

(** The fields of [self.collection] the adapter reads. *)
Record backend : Type := {
  ftp_encryption : string;
  ftp_security : string;
  ftp_server : string;
  ftp_port : Z;
  ftp_login : string;
  ftp_password : string;
  ftp_passive : bool;
  directory_path : string
}.

(** The values of [ssl.PROTOCOL_*] in CPython's [ssl] module;
  [PROTOCOL_SSLv23] is an alias of [PROTOCOL_TLS]. *)
Definition PROTOCOL_TLS : Z := 2.
Definition PROTOCOL_SSLv23 : Z := PROTOCOL_TLS.
Definition PROTOCOL_TLSv1 : Z := 3.
Definition PROTOCOL_TLSv1_1 : Z := 4.
Definition PROTOCOL_TLSv1_2 : Z := 5.

(** A value of the table: a protocol constant, or a [str]. *)
Inductive security : Type :=
  | Protocol (p : Z)
  | Str (s : string).

Definition FTP_SECURITY_TO_PROTOCOL_items : list (string * security) :=
  [ ("tls", Protocol PROTOCOL_TLS);
    ("tlsv1", Protocol PROTOCOL_TLSv1);
    ("tlsv1_1", Protocol PROTOCOL_TLSv1_1);
    ("tlsv1_2", Protocol PROTOCOL_TLSv1_2);
    ("sslv2", Str "sslv2 has been deprecated due to security issues");
    ("sslv23", Protocol PROTOCOL_SSLv23);
    ("sslv3", Str "sslv3 has been deprecated due to security issues") ].

Definition FTP_SECURITY_TO_PROTOCOL : gmap string security :=
  list_to_map FTP_SECURITY_TO_PROTOCOL_items.

(** [isinstance(security, str)] on the result of [dict.get(key, None)]. *)
Definition isinstance_str (v : option security) : option string :=
  match v with Some (Str s) => Some s | _ => None end.

(** Truth value of [security] in [if security:]. *)
Definition truthy (v : option security) : option Z :=
  match v with
  | Some (Protocol p) => if Z.eqb p 0 then None else Some p
  | _ => None
  end.

(** Modelled from the spec: [_fullpath] is inherited from the base storage
    adapter, which is not part of this module; the specification gives the
    resolved path as [root + relative_path]. *)
Definition _fullpath (self : backend) (relative_path : string) : string :=
  directory_path self +:+ relative_path.

(** ** The session factory [ftp] and the adapter's operations *)

Section Adapter.
Context {St : Type}.
(** What the constructors [ftplib.FTP()], [ImplicitFTPTLS()] and
    [ftplib.FTP_TLS()] give: constructing opens nothing. *)
Variable ftplib : ftp_class → FTP St.
(** The builtin [repr]. *)
Variable repr : exn → string.

(** The [if]/[elif] chain of [ftp]: the client object, [security] and
    [prot_p] it leaves, or the [UserError] it raises. *)
Definition ftp_choose (self : backend)
    : M St (FTP St * option security * bool) :=
  let security : option security := None in
  let prot_p := false in
  if bool_decide (ftp_encryption self = "ftp") then
    let _ftp := ftplib FTP_cls in
    ret (_ftp, security, prot_p)
  else if bool_decide (ftp_encryption self = "tls") then
    let _ftp := ftplib ImplicitFTPTLS_cls in
    let security := FTP_SECURITY_TO_PROTOCOL !! ftp_security self in
    let prot_p := true in
    match isinstance_str security with
    | Some reason => raise (UserError reason)
    | None => ret (_ftp, security, prot_p)
    end
  else
    (* [elif backend.ftp_encryption == "tls_explicit":] is the only case
       left inside the enclosing membership test *)
    let _ftp := ftplib FTP_TLS_cls in
    let prot_p := true in
    ret (_ftp, security, prot_p).

(** The statements of [ftp] inside [with _ftp as client:], up to [yield]. *)
Definition ftp_setup (self : backend) (client : FTP St)
    (security : option security) (prot_p_flag : bool) : M St unit :=
  (fun s => match truthy security with
            | Some v => (Return tt, do_set_ssl_version client v s)
            | None => (Return tt, s)
            end) ;;
  connect client (ftp_server self) (ftp_port self) ;;
  login client (ftp_login self) (ftp_password self) ;;
  (if prot_p_flag then prot_p client else ret tt) ;;
  (if ftp_passive self then set_pasv client true else ret tt).

(** [with _ftp as client: body]: [FTP.__exit__] runs on every way out of
    the block. *)
Definition with_client {A} (client : FTP St) (body : M St A) : M St A :=
  fun s => let '(r, s') := body s in (r, do_exit client s').

(** The generator [ftp(backend)] run up to its [yield client], which is
    what entering [with ftp(backend) as client:] does; an exception
    raised on the way leaves the generator's [with _ftp as client:].
    When the encryption is none of the three known ones the generator
    ends without yielding, which [contextlib] reports as a
    [RuntimeError]. *)
Definition ftp_enter (self : backend) : M St (FTP St) :=
  if bool_decide (ftp_encryption self ∈ ["ftp"; "tls"; "tls_explicit"]) then
    chosen <- ftp_choose self ;;
    let '(_ftp, security, prot_p) := chosen in
    (fun s =>
       match ftp_setup self _ftp security prot_p s with
       | (Return _, s') => (Return _ftp, s')
       | (Raise e, s') => (Raise e, do_exit _ftp s')
       | (Diverge, s') => (Diverge, do_exit _ftp s')
       end)
  else raise (RuntimeError "generator didn't yield").

(** [with ftp(backend) as client: body client]: the body runs inside the
    generator's own [with _ftp as client:], so [FTP.__exit__] runs when it
    returns and when it raises. *)
Definition ftp {A} (self : backend) (body : FTP St → M St A) : M St A :=
  if bool_decide (ftp_encryption self ∈ ["ftp"; "tls"; "tls_explicit"]) then
    chosen <- ftp_choose self ;;
    let '(_ftp, security, prot_p) := chosen in
    with_client _ftp (ftp_setup self _ftp security prot_p ;; body _ftp)
  else raise (RuntimeError "generator didn't yield").

(** [add], lines 102 to 110: make sure the directory of the file is
    there. *)
Definition add_chdir (fuel : nat) (client : FTP St) (full_path : string)
    : M St unit :=
  let dirname := os_path.dirname full_path in
  if os_path.nonempty dirname then
    try_except (cwd client dirname)
      (fun e =>
         if isinstance_OSError e then
           if errno_is_ENOENT e then ftp_mkdirs fuel client dirname
           else raise e
         else raise e)
  else ret tt.

(** [add], lines 111 to 117: the upload. *)
Definition add_store (client : FTP St) (full_path : string) (data : bytes)
    : M St unit :=
  try_except (storbinary client ("STOR " +:+ full_path) data)
    (fun e =>
       if isinstance_ftplib_Error e then raise (ValueError (repr e) (Some e))
       else if isinstance_OSError e then raise (ValueError (repr e) (Some e))
       else raise e).

(** [add]; [fuel] bounds the recursion of [ftp_mkdirs]. *)
Definition add (fuel : nat) (self : backend) (relative_path : string)
    (data : bytes) : M St unit :=
  ftp self (fun client =>
    let full_path := _fullpath self relative_path in
    add_chdir fuel client full_path ;;
    add_store client full_path data).

(** [get]: the callback [buff.write] collects the blocks and
    [buff.getvalue()] is their concatenation. *)
Definition get (self : backend) (relative_path : string) : M St bytes :=
  let full_path := _fullpath self relative_path in
  ftp self (fun client =>
    try_except
      (blocks <- retrbinary client ("RETR " +:+ full_path) ;;
       ret (concat blocks))
      (fun e =>
         if isinstance_ftplib_Error e
         then raise (FileNotFoundError (repr e) (Some e))
         else raise e)).

(** [list] *)
Definition list_ (self : backend) (relative_path : string) : M St (list string) :=
  let full_path := _fullpath self relative_path in
  ftp self (fun client =>
    try_except (nlst client full_path)
      (fun e =>
         if isinstance_OSError e then
           if errno_is_ENOENT e then ret [] else raise e
         else raise e)).

(** The [for ftp_file in files:] loop of [move_files]. *)
Fixpoint move_files_loop (self : backend) (client : FTP St)
    (files : list string) (destination_path : string) : M St unit :=
  match files with
  | [] => ret tt
  | ftp_file :: files' =>
      let dest_file_path :=
        os_path.join destination_path (os_path.basename ftp_file) in
      result <- try_except (nlst client dest_file_path)
                  (fun e => if isinstance_ftplib_Error e then ret [] else raise e) ;;
      (match result with
       | [] => ret tt
       | _ :: _ => _ <- delete client dest_file_path ;; ret tt
       end) ;;
      rename client (_fullpath self ftp_file) (_fullpath self dest_file_path) ;;
      move_files_loop self client files' destination_path
  end.

(** [move_files] *)
Definition move_files (self : backend) (files : list string)
    (destination_path : string) : M St unit :=
  ftp self (fun client => move_files_loop self client files destination_path).

(** [delete] *)
Definition delete_ (self : backend) (relative_path : string) : M St string :=
  let full_path := _fullpath self relative_path in
  ftp self (fun client => delete client full_path).

(** [validate_config] *)
Definition validate_config (self : backend) : M St unit :=
  ftp self (fun client => _ <- getwelcome client ;; ret tt).

End Adapter.

(** ** Observing the calls made on a client *)

Inductive call : Type :=
  | Call_set_ssl_version (v : Z)
  | Call_connect (host : string) (port : Z)
  | Call_login (user passwd : string)
  | Call_prot_p
  | Call_set_pasv (val : bool)
  | Call_getwelcome
  | Call_mkd (dirname : string)
  | Call_cwd (dirname : string)
  | Call_storbinary (cmd : string) (data : bytes)
  | Call_retrbinary (cmd : string)
  | Call_nlst (arg : string)
  | Call_delete (filename : string)
  | Call_rename (fromname toname : string)
  | Call_exit.

(** What a call gave back. *)
Inductive value : Type :=
  | V_None
  | V_str (s : string)
  | V_names (names : list string)
  | V_blocks (blocks : list bytes).

(** A call together with its outcome. *)
Record event : Type := { ev_call : call; ev_reply : reply value }.

Definition reply_map {A B} (f : A → B) (r : reply A) : reply B :=
  match r with Ok a => Ok (f a) | Err e => Err e end.

Definition observe {St A} (c : call) (inj : A → value) (op : Op St A)
    : Op (St * list event) A :=
  fun sl =>
    let '(r, s') := op (fst sl) in
    (r, (s', snd sl ++ [ {| ev_call := c; ev_reply := reply_map inj r |} ])).

Definition no_value (_ : unit) : value := V_None.

(** The same client, with every call appended to a log. *)
Definition traced {St} (c : FTP St) : FTP (St * list event) := {|
  do_set_ssl_version v sl :=
    (do_set_ssl_version c v (fst sl),
     snd sl ++ [ {| ev_call := Call_set_ssl_version v; ev_reply := Ok V_None |} ]);
  do_connect host port :=
    observe (Call_connect host port) no_value (do_connect c host port);
  do_login u p := observe (Call_login u p) no_value (do_login c u p);
  do_prot_p := observe Call_prot_p no_value (do_prot_p c);
  do_set_pasv b := observe (Call_set_pasv b) no_value (do_set_pasv c b);
  do_getwelcome := observe Call_getwelcome V_str (do_getwelcome c);
  do_mkd p := observe (Call_mkd p) no_value (do_mkd c p);
  do_cwd p := observe (Call_cwd p) no_value (do_cwd c p);
  do_storbinary cmd data :=
    observe (Call_storbinary cmd data) no_value (do_storbinary c cmd data);
  do_retrbinary cmd := observe (Call_retrbinary cmd) V_blocks (do_retrbinary c cmd);
  do_nlst p := observe (Call_nlst p) V_names (do_nlst c p);
  do_delete p := observe (Call_delete p) V_str (do_delete c p);
  do_rename a b := observe (Call_rename a b) no_value (do_rename c a b);
  do_exit sl :=
    (do_exit c (fst sl),
     snd sl ++ [ {| ev_call := Call_exit; ev_reply := Ok V_None |} ])
|}.

(** The calls of a log, in order. *)
Definition calls (log : list event) : list call := ev_call <$> log.

(** ** An FTP server in memory

    The far end the adapter is exercised against: files and directories
    under absolute names, a working directory per session against which
    relative names are resolved (RFC 959), one account, and names the
    account may not remove. *)

Module memftp.

Record server : Type := {
  files : gmap string bytes;
  dirs : gset string;
  locked : gset string;
  account : string * string;
  home : string;
  pwd : string
}.

Definition set_pwd (d : string) (s : server) : server :=
  {| files := files s; dirs := dirs s; locked := locked s;
     account := account s; home := home s; pwd := d |}.

Definition set_files (f : gmap string bytes) (s : server) : server :=
  {| files := f; dirs := dirs s; locked := locked s;
     account := account s; home := home s; pwd := pwd s |}.

Definition set_dirs (d : gset string) (s : server) : server :=
  {| files := files s; dirs := d; locked := locked s;
     account := account s; home := home s; pwd := pwd s |}.

Definition resolve (s : server) (p : string) : string := os_path.join (pwd s) p.

Definition is_dir (s : server) (q : string) : bool := bool_decide (q ∈ dirs s).
Definition is_file (s : server) (q : string) : bool :=
  match files s !! q with Some _ => true | None => false end.
Definition is_locked (s : server) (q : string) : bool := bool_decide (q ∈ locked s).

Fixpoint strip_prefix (pre s : string) : option string :=
  match pre with
  | EmptyString => Some s
  | String c pre' =>
      match s with
      | String c' s' => if Ascii.eqb c c' then strip_prefix pre' s' else None
      | EmptyString => None
      end
  end.

(** The blocks a download is delivered in ([blocksize=8192]). *)
Fixpoint blocks_upto (n : nat) (d : bytes) : list bytes :=
  match n with
  | O => []
  | S n' =>
      match d with
      | [] => []
      | _ :: _ => take 8192 d :: blocks_upto n' (drop 8192 d)
      end
  end.
Definition blocks (d : bytes) : list bytes := blocks_upto (length d) d.

(** The names directly inside directory [q]. *)
Definition entries (s : server) (q : string) : list string :=
  os_path.basename <$>
    filter (fun k => os_path.dirname k = q ∧ k ≠ q)
           (elements (dom (files s) ∪ dirs s)).

Section Client.
(** What the client raises when the server answers that a name does
    not exist. *)
Variable no_such_file : exn.

Definition syntax_error : exn := FtplibError "501 Syntax error in parameters".

Definition m_connect (host : string) (port : Z) : Op server unit :=
  fun s => (Ok tt, set_pwd (home s) s).

Definition m_login (user passwd : string) : Op server unit :=
  fun s =>
    if bool_decide ((user, passwd) = account s)
    then (Ok tt, set_pwd (home s) s)
    else (Err (FtplibError "530 Login incorrect."), s).

Definition m_mkd (p : string) : Op server unit :=
  fun s =>
    if negb (os_path.nonempty p) then (Err syntax_error, s) else
    let q := resolve s p in
    if is_dir s q || is_file s q
    then (Err (FtplibError "550 Create directory operation failed."), s)
    else if negb (is_dir s (os_path.dirname q)) then (Err no_such_file, s)
    else (Ok tt, set_dirs ({[ q ]} ∪ dirs s) s).

Definition m_cwd (p : string) : Op server unit :=
  fun s =>
    if negb (os_path.nonempty p) then (Err syntax_error, s) else
    let q := resolve s p in
    if is_dir s q then (Ok tt, set_pwd q s) else (Err no_such_file, s).

Definition m_storbinary (cmd : string) (data : bytes) : Op server unit :=
  fun s =>
    match strip_prefix "STOR " cmd with
    | None => (Err (FtplibError "500 Unknown command."), s)
    | Some p =>
        if negb (os_path.nonempty p) then (Err syntax_error, s) else
        let q := resolve s p in
        if is_dir s q || is_locked s q
        then (Err (FtplibError "553 Could not create file."), s)
        else if negb (is_dir s (os_path.dirname q)) then (Err no_such_file, s)
        else (Ok tt, set_files (<[ q := data ]> (files s)) s)
    end.

Definition m_retrbinary (cmd : string) : Op server (list bytes) :=
  fun s =>
    match strip_prefix "RETR " cmd with
    | None => (Err (FtplibError "500 Unknown command."), s)
    | Some p =>
        if negb (os_path.nonempty p) then (Err syntax_error, s) else
        match files s !! resolve s p with
        | Some d => (Ok (blocks d), s)
        | None => (Err no_such_file, s)
        end
    end.

Definition m_nlst (p : string) : Op server (list string) :=
  fun s =>
    let q := if os_path.nonempty p then resolve s p else pwd s in
    if is_file s q then (Ok [p], s)
    else if is_dir s q then (Ok (entries s q), s)
    else (Err no_such_file, s).

Definition m_delete (p : string) : Op server string :=
  fun s =>
    if negb (os_path.nonempty p) then (Err syntax_error, s) else
    let q := resolve s p in
    if is_locked s q then (Err (FtplibError "550 Permission denied."), s)
    else if is_file s q
    then (Ok "250 Delete operation successful.",
          set_files (base.delete q (files s)) s)
    else if is_dir s q then (Err (FtplibError "550 Not a plain file."), s)
    else (Err no_such_file, s).

Definition m_rename (fromname toname : string) : Op server unit :=
  fun s =>
    if negb (os_path.nonempty fromname) || negb (os_path.nonempty toname)
    then (Err syntax_error, s) else
    let qa := resolve s fromname in
    let qb := resolve s toname in
    match files s !! qa with
    | Some d =>
        if is_locked s qa then (Err (FtplibError "550 Permission denied."), s)
        else if is_dir s qb || is_file s qb
        then (Err (FtplibError "553 Rename failed."), s)
        else if negb (is_dir s (os_path.dirname qb)) then (Err no_such_file, s)
        else (Ok tt, set_files (<[ qb := d ]> (base.delete qa (files s))) s)
    | None =>
        if is_dir s qa then (Err (FtplibError "550 Not a plain file."), s)
        else (Err no_such_file, s)
    end.

Definition client : FTP server := {|
    do_set_ssl_version _ s := s;
    do_connect := m_connect;
    do_login := m_login;
    do_prot_p s := (Ok tt, s);
    do_set_pasv _ s := (Ok tt, s);
    do_getwelcome s := (Ok "220 Service ready.", s);
    do_mkd := m_mkd;
    do_cwd := m_cwd;
    do_storbinary := m_storbinary;
    do_retrbinary := m_retrbinary;
    do_nlst := m_nlst;
    do_delete := m_delete;
    do_rename := m_rename;
    do_exit s := set_pwd (home s) s
  |}.

(** Every class of client talks to the same server. *)
Definition ftplib (_ : ftp_class) : FTP server := client.

(** The same, with the calls logged. *)
Definition ftplib_traced (cls : ftp_class) : FTP (server * list event) :=
  traced (ftplib cls).
End Client.

(** The two ways a missing name can reach the adapter. *)
Definition enoent : exn := OSError (Some ENOENT) "No such file or directory".
Definition error_perm_550 : exn := FtplibError "550 No such file or directory.".

End memftp.
(** ** The shape of the logs

    What a session's opening and one run of the loop of [move_files] leave
    in the log of a traced client. *)

Definition ev (c : call) (r : reply value) : event :=
  {| ev_call := c; ev_reply := r |}.

(** The values of [security] and [prot_p] when [ftp] reaches its [with]. *)
Definition security_of (self : backend) : option security :=
  if bool_decide (ftp_encryption self = "ftp") then None
  else if bool_decide (ftp_encryption self = "tls")
       then FTP_SECURITY_TO_PROTOCOL !! ftp_security self
       else None.

Definition prot_p_of (self : backend) : bool :=
  negb (bool_decide (ftp_encryption self = "ftp")).

(** The calls that open a session, when all of them return. *)
Definition opening_calls (self : backend) : list call :=
  (match truthy (security_of self) with
   | Some v => [Call_set_ssl_version v]
   | None => []
   end) ++
  [Call_connect (ftp_server self) (ftp_port self);
   Call_login (ftp_login self) (ftp_password self)] ++
  (if prot_p_of self then [Call_prot_p] else []) ++
  (if ftp_passive self then [Call_set_pasv true] else []).

(** The events of an opening in which every call returned. *)
Definition opened (self : backend) : list event :=
  (fun c => ev c (Ok V_None)) <$> opening_calls self.

Section MoveLog.
Variable self : backend.
Variable destination_path : string.

(** [dest_file_path] of the loop. *)
Definition dest_file_path (ftp_file : string) : string :=
  os_path.join destination_path (os_path.basename ftp_file).

Definition rename_call (ftp_file : string) : call :=
  Call_rename (_fullpath self ftp_file) (_fullpath self (dest_file_path ftp_file)).

Definition conflict (names : list string) : bool :=
  match names with [] => false | _ :: _ => true end.

(** The probe of destination [d] and what it concluded: a listing that
    returned, or one that raised an [ftplib.Error] (no conflict). *)
Inductive probed (d : string) : event → bool → Prop :=
  | probed_listing names :
      probed d (ev (Call_nlst d) (Ok (V_names names))) (conflict names)
  | probed_refused e :
      isinstance_ftplib_Error e = true →
      probed d (ev (Call_nlst d) (Err e)) false.

(** The events of a file that was moved. *)
Inductive moved (f : string) : list event → Prop :=
  | moved_free probe :
      probed (dest_file_path f) probe false →
      moved f [probe; ev (rename_call f) (Ok V_None)]
  | moved_over probe resp :
      probed (dest_file_path f) probe true →
      moved f [probe;
               ev (Call_delete (dest_file_path f)) (Ok (V_str resp));
               ev (rename_call f) (Ok V_None)].

(** The events of a file on which the loop stopped with exception [e]. *)
Inductive stopped (f : string) (e : exn) : list event → Prop :=
  | stopped_probe :
      isinstance_ftplib_Error e = false →
      stopped f e [ev (Call_nlst (dest_file_path f)) (Err e)]
  | stopped_delete probe :
      probed (dest_file_path f) probe true →
      stopped f e [probe; ev (Call_delete (dest_file_path f)) (Err e)]
  | stopped_rename_free probe :
      probed (dest_file_path f) probe false →
      stopped f e [probe; ev (rename_call f) (Err e)]
  | stopped_rename_over probe resp :
      probed (dest_file_path f) probe true →
      stopped f e [probe;
                   ev (Call_delete (dest_file_path f)) (Ok (V_str resp));
                   ev (rename_call f) (Err e)].

(** The events of a run of the loop over [files] with outcome [r]: the
    files are moved one after the other, in order, until the list ends or
    one of them stops the loop. *)
Inductive move_log : list string → outcome unit → list event → Prop :=
  | move_log_nil : move_log [] (Return tt) []
  | move_log_moved f fs r evs evs' :
      moved f evs → move_log fs r evs' → move_log (f :: fs) r (evs ++ evs')
  | move_log_stopped f fs e evs :
      stopped f e evs → move_log (f :: fs) (Raise e) evs.

End MoveLog.

(** ** Reading logs *)

(** The events of calls that returned [None]. *)
Definition returned_None (cs : list call) : list event :=
  (fun c => ev c (Ok V_None)) <$> cs.

(** [client.set_pasv(True)], when the backend asks for passive mode. *)
Definition pasv_calls (self : backend) : list call :=
  if ftp_passive self then [Call_set_pasv true] else [].

Definition is_rename (c : call) : bool :=
  match c with Call_rename _ _ => true | _ => false end.

Definition is_nlst (c : call) : bool :=
  match c with Call_nlst _ => true | _ => false end.

(** [os.path.dirname] applied [k] times. *)
Definition ancestor (k : nat) (path : string) : string :=
  Nat.iter k os_path.dirname path.

(** ** A scripted client

    A client that answers from a table: which calls raise, and what the
    listing and download calls give when they return.  It has no state of
    its own. *)

Module scripted.
Section Client.
Variable fails : call → option exn.
Variable listing : string → list string.
Variable content : string → list bytes.

Definition answer {A} (c : call) (a : A) : Op unit A :=
  fun s => (match fails c with Some e => Err e | None => Ok a end, s).

Definition client : FTP unit := {|
    do_set_ssl_version _ s := s;
    do_connect host port := answer (Call_connect host port) tt;
    do_login u p := answer (Call_login u p) tt;
    do_prot_p := answer Call_prot_p tt;
    do_set_pasv b := answer (Call_set_pasv b) tt;
    do_getwelcome := answer Call_getwelcome "220 Service ready.";
    do_mkd p := answer (Call_mkd p) tt;
    do_cwd p := answer (Call_cwd p) tt;
    do_storbinary cmd data := answer (Call_storbinary cmd data) tt;
    do_retrbinary cmd := answer (Call_retrbinary cmd) (content cmd);
    do_nlst p := answer (Call_nlst p) (listing p);
    do_delete p := answer (Call_delete p) "250 Delete operation successful.";
    do_rename a b := answer (Call_rename a b) tt;
    do_exit s := s
  |}.

Definition ftplib (_ : ftp_class) : FTP unit := client.
Definition ftplib_traced (cls : ftp_class) : FTP (unit * list event) :=
  traced (ftplib cls).
End Client.
End scripted.

(** ** Sample configurations and servers *)

Module sample.



(** A server with an empty home directory. *)
Definition empty_home : memftp.server := {|
  memftp.files := ∅;
  memftp.dirs := {[ "/"; "/home"; "/home/u" ]};
  memftp.locked := ∅;
  memftp.account := ("u", "secret");
  memftp.home := "/home/u";
  memftp.pwd := "/home/u"
|}.

(** Plain FTP under the root [/home/u/]. *)
Definition plain : backend := {|
  ftp_encryption := "ftp";
  ftp_security := "";
  ftp_server := "ftp.example.org";
  ftp_port := 21;
  ftp_login := "u";
  ftp_password := "secret";
  ftp_passive := true;
  directory_path := "/home/u/"
|}.

(** Implicit TLS with a security preference. *)
Definition implicit_tls (security : string) : backend := {|
  ftp_encryption := "tls";
  ftp_security := security;
  ftp_server := "ftp.example.org";
  ftp_port := 990;
  ftp_login := "u";
  ftp_password := "secret";
  ftp_passive := true;
  directory_path := "/home/u/"
|}.

(** Explicit TLS under the root [/srv/]. *)
Definition explicit_tls : backend := {|
  ftp_encryption := "tls_explicit";
  ftp_security := "";
  ftp_server := "ftp.example.org";
  ftp_port := 21;
  ftp_login := "u";
  ftp_password := "secret";
  ftp_passive := false;
  directory_path := "/srv/"
|}.


(** Clients on which one kind of call fails. *)
Definition nlst_missing (c : call) : option exn :=
  match c with
  | Call_nlst _ => Some (OSError (Some ENOENT) "No such file or directory")
  | _ => None
  end.




Definition none_fails (c : call) : option exn := None.

(** A [repr] for the samples: the class name only. *)
Definition repr (e : exn) : string :=
  match e with
  | OSError _ _ => "OSError(...)"
  | FtplibError _ => "error_perm(...)"
  | EOFError => "EOFError()"
  | UserError _ => "UserError(...)"
  | ValueError _ _ => "ValueError(...)"
  | FileNotFoundError _ _ => "FileNotFoundError(...)"
  | RuntimeError _ => "RuntimeError(...)"
  end.

(** A server with two files to move and a destination that holds files of
    those names, the second of which may not be removed. *)
Definition two_files : memftp.server := {|
  memftp.files :=
    {[ "/home/u/a/x.txt" := [x01];
       "/home/u/a/y.txt" := [x02];
       "/home/u/a/z.txt" := [x03];
       "/home/u/b/x.txt" := [x0a];
       "/home/u/b/y.txt" := [x0b] ]};
  memftp.dirs := {[ "/"; "/home"; "/home/u"; "/home/u/a"; "/home/u/b" ]};
  memftp.locked := {[ "/home/u/b/y.txt" ]};
  memftp.account := ("u", "secret");
  memftp.home := "/home/u";
  memftp.pwd := "/home/u"
|}.

(** An encryption the adapter does not know. *)
Definition unknown_encryption : backend := {|
  ftp_encryption := "sftp";
  ftp_security := "";
  ftp_server := "ftp.example.org";
  ftp_port := 22;
  ftp_login := "u";
  ftp_password := "secret";
  ftp_passive := true;
  directory_path := "/home/u/"
|}.

(** No directory part: files directly under the login directory. *)
Definition flat : backend := {|
  ftp_encryption := "ftp";
  ftp_security := "";
  ftp_server := "ftp.example.org";
  ftp_port := 21;
  ftp_login := "u";
  ftp_password := "secret";
  ftp_passive := false;
  directory_path := ""
|}.



(** A server that holds one file. *)
Definition one_file : memftp.server := {|
  memftp.files := {[ "/home/u/a/x.txt" := [x01; x00; x02] ]};
  memftp.dirs := {[ "/"; "/home"; "/home/u"; "/home/u/a" ]};
  memftp.locked := ∅;
  memftp.account := ("u", "secret");
  memftp.home := "/home/u";
  memftp.pwd := "/home/u"
|}.

(** A server whose home holds a directory [a] that holds a directory
    [a] again. *)
Definition nested_home : memftp.server := {|
  memftp.files := ∅;
  memftp.dirs := {[ "/"; "/home"; "/home/u"; "/home/u/a"; "/home/u/a/a" ]};
  memftp.locked := ∅;
  memftp.account := ("u", "secret");
  memftp.home := "/home/u";
  memftp.pwd := "/home/u"
|}.

(** A listing for the scripted client: every destination is taken. *)
Definition taken (p : string) : list string := [p].

End sample.

(** * Properties *)

(** ** Path helpers *)

Section PathFacts.
Import os_path.

Lemma string_app_empty t : "" +:+ t = t.
Proof. reflexivity. Qed.

Lemma string_app_String c h t : String c h +:+ t = String c (h +:+ t).
Proof. reflexivity. Qed.

Lemma split_rfind_app p :
  fst (split_rfind p) +:+ snd (split_rfind p) = p.
Proof.
  induction p as [|c p IH]; [done|].
  simpl. destruct (split_rfind p) as [h t]. simpl in IH.
  destruct h as [|c' h].
  - rewrite string_app_empty in IH. subst t. by destruct (is_sep c).
  - simpl. by rewrite string_app_String, IH.
Qed.

Lemma all_sep_app h t : all_sep (h +:+ t) = all_sep h && all_sep t.
Proof.
  induction h as [|c h IH]; [done|].
  rewrite string_app_String. simpl. rewrite IH. by rewrite andb_assoc.
Qed.

Lemma string_length_app h t : String.length (h +:+ t) = (String.length h + String.length t)%nat.
Proof.
  induction h as [|c h IH]; [done|].
  rewrite string_app_String. simpl. by rewrite IH.
Qed.



Lemma rstrip_le h : (String.length (rstrip h) ≤ String.length h)%nat.
Proof.
  induction h as [|c h IH]; [done|].
  simpl. destruct (rstrip h); [destruct (is_sep c)|]; simpl in *; lia.
Qed.


Lemma dirname_le p : (String.length (dirname p) ≤ String.length p)%nat.
Proof.
  unfold dirname. pose proof (split_rfind_app p) as Happ.
  apply (f_equal String.length) in Happ. rewrite string_length_app in Happ.
  pose proof (rstrip_le (fst (split_rfind p))).
  destruct (_ && _); lia.
Qed.


Lemma dirname_all_sep p : all_sep p = true → dirname p = p.
Proof.
  intros Hp. unfold dirname.
  assert (fst (split_rfind p) = p) as ->.
  { induction p as [|c p IH]; [done|].
    simpl in *. apply andb_true_iff in Hp as [Hc Hp]. specialize (IH Hp).
    destruct (split_rfind p) as [h t]. simpl in IH. subst h.
    destruct p; simpl; [by rewrite Hc|done]. }
  rewrite Hp. by rewrite andb_false_r.
Qed.





End PathFacts.

(** The model of [os.path] on the paths of the specification. *)
Example dirname_of_nested_path : os_path.dirname "a/b/c" = "a/b".
Proof. reflexivity. Qed.
Example dirname_of_plain_name : os_path.dirname "a" = "".
Proof. reflexivity. Qed.
Example dirname_of_root : os_path.dirname "/" = "/".
Proof. reflexivity. Qed.
Example dirname_under_root : os_path.dirname "/a" = "/".
Proof. reflexivity. Qed.
Example dirname_with_trailing_separator : os_path.dirname "a//b/" = "a//b".
Proof. reflexivity. Qed.
Example dirname_of_double_root : os_path.dirname "//a" = "//".
Proof. reflexivity. Qed.
Example basename_of_nested_path : os_path.basename "a/b/c.txt" = "c.txt".
Proof. reflexivity. Qed.
Example basename_with_trailing_separator : os_path.basename "a/b/" = "".
Proof. reflexivity. Qed.
Example join_of_relative_name : os_path.join "b" "x.txt" = "b/x.txt".
Proof. reflexivity. Qed.
Example join_of_absolute_name : os_path.join "b" "/x.txt" = "/x.txt".
Proof. reflexivity. Qed.
Example join_after_separator : os_path.join "b/" "x.txt" = "b/x.txt".
Proof. reflexivity. Qed.
Example join_to_empty : os_path.join "" "x.txt" = "x.txt".
Proof. reflexivity. Qed.

(** ** The monad *)


Lemma bind_Raise {St A B} (m : M St A) (k : A → M St B) s e s' :
  m s = (Raise e, s') → bind m k s = (Raise e, s').
Proof. unfold bind. by intros ->. Qed.

Lemma bind_Diverge {St A B} (m : M St A) (k : A → M St B) s s' :
  m s = (Diverge, s') → bind m k s = (Diverge, s').
Proof. unfold bind. by intros ->. Qed.

Lemma perform_Ok {St A} (op : Op St A) s a s' :
  op s = (Ok a, s') → perform op s = (Return a, s').
Proof. unfold perform. by intros ->. Qed.

Lemma perform_Err {St A} (op : Op St A) s e s' :
  op s = (Err e, s') → perform op s = (Raise e, s').
Proof. unfold perform. by intros ->. Qed.


(** ** [ftp_mkdirs] *)

Section MkdirsFacts.
Context {St : Type} (client : FTP St).

Lemma ftp_mkdirs_returns fuel path s s' :
  do_mkd client path s = (Ok tt, s') →
  ftp_mkdirs (S fuel) client path s = (Return tt, s').
Proof.
  intros H. simpl. unfold try_except, mkd. by rewrite (perform_Ok _ _ _ _ H).
Qed.

(** The recursive case: creation failed with [ENOENT] on a non-empty
    path. *)
Lemma ftp_mkdirs_recurses fuel path s e s' :
  do_mkd client path s = (Err e, s') →
  isinstance_OSError e && errno_is_ENOENT e && os_path.nonempty path = true →
  ftp_mkdirs (S fuel) client path s =
    (ftp_mkdirs fuel client (os_path.dirname path) ;; mkd client path) s'.
Proof.
  intros H Hc. simpl. unfold try_except at 1. unfold mkd at 1.
  rewrite (perform_Err _ _ _ _ H).
  apply andb_true_iff in Hc as [Hc Hp]. apply andb_true_iff in Hc as [-> ->].
  by rewrite Hp.
Qed.

(** Every other failure leaves as it came. *)
Lemma ftp_mkdirs_reraises fuel path s e s' :
  do_mkd client path s = (Err e, s') →
  isinstance_OSError e && errno_is_ENOENT e && os_path.nonempty path = false →
  ftp_mkdirs (S fuel) client path s = (Raise e, s').
Proof.
  intros H Hc. simpl. unfold try_except at 1. unfold mkd at 1.
  rewrite (perform_Err _ _ _ _ H).
  destruct (isinstance_OSError e); [|done].
  destruct (errno_is_ENOENT e); [|done].
  simpl in Hc. by rewrite Hc.
Qed.



End MkdirsFacts.





(** ** [ftp_mkdirs] against the server in memory *)

Section MkdirsOnServer.
Import os_path.

Lemma split_rfind_app_r x y :
  nonempty (fst (split_rfind y)) = true →
  split_rfind (x +:+ y) = (x +:+ fst (split_rfind y), snd (split_rfind y)).
Proof.
  intros Hy. induction x as [|c x IH].
  { rewrite !string_app_empty. by destruct (split_rfind y). }
  rewrite !string_app_String. simpl. rewrite IH.
  destruct (x +:+ fst (split_rfind y)) eqn:Hx; [|done].
  destruct x; [|by rewrite string_app_String in Hx].
  rewrite string_app_empty in Hx. by rewrite Hx in Hy.
Qed.

Lemma rstrip_app x y :
  nonempty (rstrip y) = true → rstrip (x +:+ y) = x +:+ rstrip y.
Proof.
  intros Hy. induction x as [|c x IH]; [by rewrite !string_app_empty|].
  rewrite !string_app_String. simpl. rewrite IH.
  destruct (x +:+ rstrip y) eqn:Hx; [|done].
  destruct x; [|by rewrite string_app_String in Hx].
  rewrite string_app_empty in Hx. by rewrite Hx in Hy.
Qed.

Lemma all_sep_rstrip h : all_sep h = true → rstrip h = "".
Proof.
  induction h as [|c h IH]; [done|].
  simpl. intros [Hc Hh]%andb_true_iff. by rewrite (IH Hh), Hc.
Qed.

(** The parent of [x] followed by [y], when [y] holds a separator with
    something other than separators before its last one. *)
Lemma dirname_app x y :
  nonempty (rstrip (fst (split_rfind y))) = true →
  dirname (x +:+ y) = x +:+ rstrip (fst (split_rfind y)).
Proof.
  intros Hy.
  assert (nonempty (fst (split_rfind y)) = true) as Hhead.
  { by destruct (fst (split_rfind y)). }
  unfold dirname. rewrite (split_rfind_app_r _ _ Hhead). simpl.
  assert (all_sep (fst (split_rfind y)) = false) as Hall.
  { destruct (all_sep (fst (split_rfind y))) eqn:H; [|done].
    by rewrite (all_sep_rstrip _ H) in Hy. }
  rewrite all_sep_app, Hall, andb_false_r.
  assert (nonempty (x +:+ fst (split_rfind y)) = true) as ->.
  { destruct x; [by rewrite string_app_empty|done]. }
  simpl. by apply rstrip_app.
Qed.

Lemma rstrip_app_sep d :
  nonempty d = true → endswith_sep d = false → rstrip (d +:+ "/") = d.
Proof.
  induction d as [|c d IH]; [done|]. intros _ Hend.
  rewrite string_app_String. simpl.
  destruct d as [|c' d'].
  - rewrite string_app_empty. simpl in *. by rewrite Hend.
  - rewrite IH; done.
Qed.

Lemma not_all_sep d :
  nonempty d = true → endswith_sep d = false → all_sep d = false.
Proof.
  induction d as [|c d IH]; [done|]. intros _ Hend. simpl.
  destruct d as [|c' d']; [simpl in *; by rewrite Hend|].
  rewrite IH; [apply andb_false_r|done|done].
Qed.

(** The parent of a name directly under directory [d]. *)
Lemma dirname_child d :
  nonempty d = true → endswith_sep d = false → dirname (d +:+ "/a") = d.
Proof.
  intros Hne Hend. unfold dirname.
  rewrite (split_rfind_app_r d "/a" eq_refl).
  change (fst (d +:+ fst (split_rfind "/a"), snd (split_rfind "/a")))
    with (d +:+ "/").
  rewrite all_sep_app, (not_all_sep _ Hne Hend). simpl.
  assert (nonempty (d +:+ "/") = true) as -> by (by destruct d).
  simpl. by apply rstrip_app_sep.
Qed.

Lemma join_relative d p :
  nonempty d = true → endswith_sep d = false → startswith_sep p = false →
  join d p = d +:+ "/" +:+ p.
Proof. unfold join. by intros -> -> ->. Qed.

Import memftp.

Lemma traced_mkd_missing (s : server) log p q :
  nonempty p = true → resolve s p = q →
  is_dir s q || is_file s q = false →
  is_dir s (dirname q) = false →
  do_mkd (traced (client enoent)) p (s, log)
    = (Err enoent, (s, log ++ [ev (Call_mkd p) (Err enoent)])).
Proof.
  intros Hp Hq Hfree Hparent. cbn [do_mkd traced]. unfold observe. simpl.
  unfold m_mkd. by rewrite Hp, Hq, Hfree, Hparent.
Qed.

Lemma traced_mkd_created (s : server) log p q :
  nonempty p = true → resolve s p = q →
  is_dir s q || is_file s q = false →
  is_dir s (dirname q) = true →
  do_mkd (traced (client enoent)) p (s, log)
    = (Ok tt, (set_dirs ({[ q ]} ∪ dirs s) s, log ++ [ev (Call_mkd p) (Ok V_None)])).
Proof.
  intros Hp Hq Hfree Hparent. cbn [do_mkd traced]. unfold observe. simpl.
  unfold m_mkd. by rewrite Hp, Hq, Hfree, Hparent.
Qed.

(** On a server whose working directory [d] exists and holds none of
    [a], [a/b], [a/b/c], [ftp_mkdirs] on [a/b/c] tries [a/b/c] and [a/b],
    which fail for want of a parent, and then creates [a], [a/b] and
    [a/b/c], in this order. *)
Lemma ftp_mkdirs_abc (s : server) log d :
  pwd s = d → nonempty d = true → endswith_sep d = false →
  is_dir s d = true →
  is_dir s (d +:+ "/a") || is_file s (d +:+ "/a") = false →
  is_dir s (d +:+ "/a/b") || is_file s (d +:+ "/a/b") = false →
  is_dir s (d +:+ "/a/b/c") || is_file s (d +:+ "/a/b/c") = false →
  ftp_mkdirs 3 (traced (client enoent)) "a/b/c" (s, log)
  = (Return tt,
     (set_dirs ({[ d +:+ "/a/b/c" ]} ∪ ({[ d +:+ "/a/b" ]} ∪ ({[ d +:+ "/a" ]} ∪ dirs s))) s,
      log ++ [ev (Call_mkd "a/b/c") (Err enoent);
              ev (Call_mkd "a/b") (Err enoent);
              ev (Call_mkd "a") (Ok V_None);
              ev (Call_mkd "a/b") (Ok V_None);
              ev (Call_mkd "a/b/c") (Ok V_None)])).
Proof.
  intros Hpwd Hne Hend Hd H1 H2 H3.
  assert (∀ p s', pwd s' = d → startswith_sep p = false →
            resolve s' p = d +:+ "/" +:+ p) as Hres.
  { intros p s' Hs' Hp. unfold resolve. rewrite Hs'. by apply join_relative. }
  assert (dirname (d +:+ "/a/b/c") = d +:+ "/a/b") as Hd3
    by apply (dirname_app d "/a/b/c" eq_refl).
  assert (dirname (d +:+ "/a/b") = d +:+ "/a") as Hd2
    by apply (dirname_app d "/a/b" eq_refl).
  pose proof (dirname_child d Hne Hend) as Hd1.
  apply orb_false_iff in H1 as [H1d H1f].
  apply orb_false_iff in H2 as [H2d H2f].
  apply orb_false_iff in H3 as [H3d H3f].
  (* [a/b/c]: the parent [a/b] is missing *)
  rewrite (ftp_mkdirs_recurses _ 2 "a/b/c" _ enoent _
             (traced_mkd_missing s log "a/b/c" (d +:+ "/a/b/c") eq_refl
                (Hres "a/b/c" s Hpwd eq_refl) ltac:(by rewrite H3d, H3f)
                ltac:(by rewrite Hd3)) eq_refl).
  change (dirname "a/b/c") with "a/b".
  (* [a/b]: the parent [a] is missing *)
  unfold bind at 1.
  rewrite (ftp_mkdirs_recurses _ 1 "a/b" _ enoent _
             (traced_mkd_missing s _ "a/b" (d +:+ "/a/b") eq_refl
                (Hres "a/b" s Hpwd eq_refl) ltac:(by rewrite H2d, H2f)
                ltac:(by rewrite Hd2)) eq_refl).
  change (dirname "a/b") with "a".
  (* [a]: created *)
  unfold bind at 1.
  rewrite (ftp_mkdirs_returns _ 0 "a" _ _
             (traced_mkd_created s _ "a" (d +:+ "/a") eq_refl
                (Hres "a" s Hpwd eq_refl) ltac:(by rewrite H1d, H1f)
                ltac:(by rewrite Hd1))).
  (* [a/b] again: created *)
  set (s1 := set_dirs ({[ d +:+ "/a" ]} ∪ dirs s) s).
  assert (is_dir s1 (d +:+ "/a/b") || is_file s1 (d +:+ "/a/b") = false) as H2'.
  { unfold is_dir, is_file in *. simpl. rewrite H2f, orb_false_r.
    apply bool_decide_eq_false. apply bool_decide_eq_false in H2d.
    intros [Heq%elem_of_singleton|?]%elem_of_union; [|done].
    by apply (inj (String.app d)) in Heq. }
  assert (is_dir s1 (dirname (d +:+ "/a/b")) = true) as H2p.
  { rewrite Hd2. unfold is_dir. simpl. apply bool_decide_eq_true. set_solver. }
  unfold mkd at 1.
  rewrite (perform_Ok _ _ _ _
             (traced_mkd_created s1 _ "a/b" (d +:+ "/a/b") eq_refl
                (Hres "a/b" s1 Hpwd eq_refl) H2' H2p)).
  (* [a/b/c] again: created *)
  set (s2 := set_dirs ({[ d +:+ "/a/b" ]} ∪ dirs s1) s1).
  assert (is_dir s2 (d +:+ "/a/b/c") || is_file s2 (d +:+ "/a/b/c") = false) as H3'.
  { unfold is_dir, is_file in *. simpl. rewrite H3f, orb_false_r.
    apply bool_decide_eq_false. apply bool_decide_eq_false in H3d.
    intros [Heq%elem_of_singleton|[Heq%elem_of_singleton|?]%elem_of_union]%elem_of_union;
      [| |done]; by apply (inj (String.app d)) in Heq. }
  assert (is_dir s2 (dirname (d +:+ "/a/b/c")) = true) as H3p.
  { rewrite Hd3. unfold is_dir. simpl. apply bool_decide_eq_true. set_solver. }
  unfold mkd.
  rewrite (perform_Ok _ _ _ _
             (traced_mkd_created s2 _ "a/b/c" (d +:+ "/a/b/c") eq_refl
                (Hres "a/b/c" s2 Hpwd eq_refl) H3' H3p)).
  unfold s2, s1, set_dirs. simpl. by rewrite <- !app_assoc.
Qed.

End MkdirsOnServer.

(** The retry of [ftp_mkdirs] where a missing parent is reported as an
    [IOError]: when [mkd path] fails with [ENOENT] on a non-empty [path],
    [ftp_mkdirs] first runs itself on the parent and then calls [mkd path]
    again; a failure of any other kind leaves [ftp_mkdirs] as the very
    exception [mkd] raised, after that one call; and on a server that
    reports a missing parent with [ENOENT] and whose working directory holds
    none of [a], [a/b], [a/b/c], [ftp_mkdirs client "a/b/c"] returns having
    created [a], then [a/b], then [a/b/c]. *)
Theorem ftp_mkdirs_creates_missing_parents_first :
  (∀ St (client : FTP St) fuel path s e s',
     do_mkd client path s = (Err e, s') →
     isinstance_OSError e = true → errno_is_ENOENT e = true → path ≠ "" →
     ftp_mkdirs (S fuel) client path s =
       (ftp_mkdirs fuel client (os_path.dirname path) ;; mkd client path) s') ∧
  (∀ St (client : FTP St) fuel path s e s',
     do_mkd client path s = (Err e, s') →
     isinstance_OSError e && errno_is_ENOENT e = false →
     ftp_mkdirs (S fuel) client path s = (Raise e, s')) ∧
  (∀ (s : memftp.server) (log : list event) (d : string),
     memftp.pwd s = d →
     os_path.nonempty d = true → os_path.endswith_sep d = false →
     memftp.is_dir s d = true →
     memftp.is_dir s (d +:+ "/a") || memftp.is_file s (d +:+ "/a") = false →
     memftp.is_dir s (d +:+ "/a/b") || memftp.is_file s (d +:+ "/a/b") = false →
     memftp.is_dir s (d +:+ "/a/b/c") || memftp.is_file s (d +:+ "/a/b/c") = false →
     ftp_mkdirs 3 (traced (memftp.client memftp.enoent)) "a/b/c" (s, log)
     = (Return tt,
        (memftp.set_dirs
           ({[ d +:+ "/a/b/c" ]} ∪ ({[ d +:+ "/a/b" ]} ∪ ({[ d +:+ "/a" ]}
              ∪ memftp.dirs s))) s,
         log ++ [ev (Call_mkd "a/b/c") (Err memftp.enoent);
                 ev (Call_mkd "a/b") (Err memftp.enoent);
                 ev (Call_mkd "a") (Ok V_None);
                 ev (Call_mkd "a/b") (Ok V_None);
                 ev (Call_mkd "a/b/c") (Ok V_None)]))).
Proof.
  split; [|split].
  - intros St client fuel path s e s' Hmkd He1 He2 Hpath.
    apply (ftp_mkdirs_recurses client fuel path s e s' Hmkd).
    rewrite He1, He2. by destruct path.
  - intros St client fuel path s e s' Hmkd He.
    apply (ftp_mkdirs_reraises client fuel path s e s' Hmkd).
    by rewrite He.
  - apply ftp_mkdirs_abc.
Qed.

Lemma ftp_mkdirs_creates_missing_parents_first_witness :
  ftp_mkdirs 3 (traced (memftp.client memftp.enoent)) "a/b/c" (sample.empty_home, [])
  = (Return tt,
     (memftp.set_dirs
        ({[ "/home/u/a/b/c" ]} ∪ ({[ "/home/u/a/b" ]} ∪ ({[ "/home/u/a" ]}
           ∪ memftp.dirs sample.empty_home))) sample.empty_home,
      [ev (Call_mkd "a/b/c") (Err memftp.enoent);
       ev (Call_mkd "a/b") (Err memftp.enoent);
       ev (Call_mkd "a") (Ok V_None);
       ev (Call_mkd "a/b") (Ok V_None);
       ev (Call_mkd "a/b/c") (Ok V_None)])).
Proof.
  exact (proj2 (proj2 ftp_mkdirs_creates_missing_parents_first)
           sample.empty_home [] "/home/u"
           eq_refl eq_refl eq_refl eq_refl eq_refl eq_refl eq_refl).
Defined.

(** ** The session factory *)

Section SessionFacts.
Context {St : Type} (ftplib : ftp_class → FTP St).

(** [with ftp(backend) as client: body] is: enter, run the body, leave. *)
Lemma ftp_enter_spec {A} self (body : FTP St → M St A) s :
  ftp ftplib self body s =
    match ftp_enter ftplib self s with
    | (Return client, s0) => with_client client (body client) s0
    | (Raise e, s') => (Raise e, s')
    | (Diverge, s') => (Diverge, s')
    end.
Proof.
  unfold ftp, ftp_enter. case_bool_decide; [|done].
  unfold bind at 1 3.
  destruct (ftp_choose ftplib self s) as [[[[_ftp security] prot_p]|e|] s1]; try done.
  unfold with_client, bind.
  by destruct (ftp_setup self _ftp security prot_p s1) as [[[]|e|] s2].
Qed.

Lemma ftp_entered {A} self (body : FTP St → M St A) s client s0 :
  ftp_enter ftplib self s = (Return client, s0) →
  ftp ftplib self body s =
    (let '(r, s1) := body client s0 in (r, do_exit client s1)).
Proof. intros H. by rewrite ftp_enter_spec, H. Qed.

Lemma ftp_not_entered {A} self (body : FTP St → M St A) s e s' :
  ftp_enter ftplib self s = (Raise e, s') →
  ftp ftplib self body s = (Raise e, s').
Proof. intros H. by rewrite ftp_enter_spec, H. Qed.

(** The entries of the security table that are strings. *)
Lemma disabled_securities key reason :
  FTP_SECURITY_TO_PROTOCOL !! key = Some (Str reason) →
  (key = "sslv2" ∧ reason = "sslv2 has been deprecated due to security issues") ∨
  (key = "sslv3" ∧ reason = "sslv3 has been deprecated due to security issues").
Proof.
  intros H. apply elem_of_list_to_map_2 in H.
  unfold FTP_SECURITY_TO_PROTOCOL_items in H.
  repeat (apply elem_of_cons in H as [H|H]; [simplify_eq; auto|]).
  by apply elem_of_nil in H.
Qed.

(** A disabled security stops [ftp] before the client is used. *)
Lemma ftp_enter_disabled self reason s :
  ftp_encryption self = "tls" →
  FTP_SECURITY_TO_PROTOCOL !! ftp_security self = Some (Str reason) →
  ftp_enter ftplib self s = (Raise (UserError reason), s).
Proof.
  intros Henc Hsec. unfold ftp_enter, ftp_choose. rewrite Henc, Hsec. done.
Qed.

End SessionFacts.

(** C1: when the encryption is implicit TLS and the security preference is
    one the table maps to a string (these are [sslv2] and [sslv3], each with
    its deprecation message), [with ftp(backend) as client:] raises
    [UserError] with that message, and the log of calls made on the client
    is what it was: no [connect], nothing at all. *)
Theorem disabled_security_fails_before_any_call :
  ∀ St (ftplib : ftp_class → FTP St) (self : backend) (reason : string),
    ftp_encryption self = "tls" →
    FTP_SECURITY_TO_PROTOCOL !! ftp_security self = Some (Str reason) →
    ((ftp_security self = "sslv2" ∧
      reason = "sslv2 has been deprecated due to security issues") ∨
     (ftp_security self = "sslv3" ∧
      reason = "sslv3 has been deprecated due to security issues")) ∧
    ∀ A (body : FTP (St * list event) → M (St * list event) A) s log,
      ftp (fun cls => traced (ftplib cls)) self body (s, log)
      = (Raise (UserError reason), (s, log)).
Proof.
  intros St ftplib self reason Henc Hsec. split.
  - by apply disabled_securities.
  - intros A body s log. apply ftp_not_entered. by apply ftp_enter_disabled.
Qed.

Lemma disabled_security_fails_before_any_call_witness :
  ftp (fun cls => traced (scripted.ftplib sample.none_fails (fun _ => []) (fun _ => []) cls))
      (sample.implicit_tls "sslv3") (fun client => getwelcome client) (tt, [])
  = (Raise (UserError "sslv3 has been deprecated due to security issues"), (tt, [])).
Proof.
  apply (proj2 (disabled_security_fails_before_any_call unit
                  (scripted.ftplib sample.none_fails (fun _ => []) (fun _ => []))
                  (sample.implicit_tls "sslv3")
                  "sslv3 has been deprecated due to security issues"
                  eq_refl eq_refl)).
Defined.

(** The handler of [list]: once the session is open, if [nlst] of the
    resolved path raises an [IOError] whose [errno] is [ENOENT], [list]
    returns the empty list; if it
    raises anything else, [list] raises that same exception.  Either way the
    session is left through [FTP.__exit__]. *)
Theorem list_of_missing_path_is_empty :
  ∀ St (ftplib : ftp_class → FTP St) (self : backend) (relative_path : string)
    (s : St) (client : FTP St) (s0 : St) (e : exn) (s1 : St),
    ftp_enter ftplib self s = (Return client, s0) →
    do_nlst client (_fullpath self relative_path) s0 = (Err e, s1) →
    list_ ftplib self relative_path s =
      (if isinstance_OSError e && errno_is_ENOENT e then Return [] else Raise e,
       do_exit client s1).
Proof.
  intros St ftplib self relative_path s client s0 e s1 Henter Hnlst.
  unfold list_. rewrite (ftp_entered _ _ _ _ _ _ Henter).
  unfold try_except, nlst. rewrite (perform_Err _ _ _ _ Hnlst).
  destruct (isinstance_OSError e); [|done].
  by destruct (errno_is_ENOENT e).
Qed.

Lemma list_of_missing_path_is_empty_witness :
  list_ (scripted.ftplib sample.nlst_missing (fun _ => []) (fun _ => []))
        sample.plain "missing/dir" tt
  = (Return [], tt).
Proof.
  exact (list_of_missing_path_is_empty unit
           (scripted.ftplib sample.nlst_missing (fun _ => []) (fun _ => []))
           sample.plain "missing/dir" tt _ tt _ tt eq_refl eq_refl).
Defined.


(** C9 fails where the missing path is reported as [ftplib] reports a
    reply [550], with [ftplib.error_perm]: that is the signal [get] and the
    probe of [move_files] take for a missing name, but [list] handles
    [IOError] only.  For every client, when [nlst] of the resolved path
    raises an exception that is no [OSError], [list] raises it; and on a
    server whose home is empty, [list("missing/dir")] raises the [550]
    where the claim has the empty list. *)
Theorem list_raises_on_missing_path_error_perm :
  (∀ St (ftplib : ftp_class → FTP St) (self : backend) (relative_path : string)
     (s : St) (client : FTP St) (s0 : St) (e : exn) (s1 : St),
     ftp_enter ftplib self s = (Return client, s0) →
     do_nlst client (_fullpath self relative_path) s0 = (Err e, s1) →
     isinstance_OSError e = false →
     list_ ftplib self relative_path s = (Raise e, do_exit client s1)) ∧
  list_ (memftp.ftplib_traced memftp.error_perm_550) sample.plain "missing/dir"
    (sample.empty_home, [])
  = (Raise memftp.error_perm_550,
     (sample.empty_home,
      opened sample.plain ++
      [ev (Call_nlst "/home/u/missing/dir") (Err memftp.error_perm_550);
       ev Call_exit (Ok V_None)])).
Proof.
  split.
  - intros St ftplib self relative_path s client s0 e s1 Henter Hnlst He.
    unfold list_. rewrite (ftp_entered _ _ _ _ _ _ Henter).
    unfold try_except, nlst. rewrite (perform_Err _ _ _ _ Hnlst).
    by rewrite He.
  - reflexivity.
Qed.



(** ** The [sock] property of [ImplicitFTPTLS] *)

Section SockFacts.
Import ImplicitFTPTLS.
Variable handshake : Z → socket → option exn.

Lemma sock_setter_secure self value :
  sock_is_secure self → sock_is_secure (snd (sock_setter handshake self value)).
Proof.
  intros Hself. unfold sock_setter, wrap_socket.
  destruct value as [v|]; [|done].
  destruct (isinstance_SSLSocket v) eqn:Hv; simpl; [done|].
  by destruct (handshake (context self) v).
Qed.

Lemma assign_all_secure self values :
  sock_is_secure self → sock_is_secure (assign_all handshake self values).
Proof.
  revert self. induction values as [|v values IH]; intros self Hself; [done|].
  simpl. apply IH. by apply sock_setter_secure.
Qed.

End SockFacts.

(** C2: whatever values are assigned to [sock] of an [ImplicitFTPTLS]
    object after [__init__], the stored socket is [None] or an
    [ssl.SSLSocket]; and an assignment stores [None] and an [ssl.SSLSocket]
    as they are, stores any other socket wrapped by [self.context], or, when
    the wrapping raises, raises the same and stores nothing. *)
Theorem sock_is_always_tls_wrapped :
  ∀ (handshake : Z → ImplicitFTPTLS.socket → option exn),
    (∀ ctx values,
       ImplicitFTPTLS.sock_is_secure
         (ImplicitFTPTLS.assign_all handshake (ImplicitFTPTLS.__init__ ctx) values)) ∧
    (∀ self value,
       ImplicitFTPTLS.sock_is_secure self →
       ImplicitFTPTLS.sock_is_secure
         (snd (ImplicitFTPTLS.sock_setter handshake self value))) ∧
    (∀ self value,
       let '(r, self') := ImplicitFTPTLS.sock_setter handshake self value in
       match value with
       | None => r = Return tt ∧ ImplicitFTPTLS.sock self' = None
       | Some v =>
           if ImplicitFTPTLS.isinstance_SSLSocket v
           then r = Return tt ∧ ImplicitFTPTLS.sock self' = Some v
           else
             match handshake (ImplicitFTPTLS.context self) v with
             | None =>
                 r = Return tt ∧
                 ImplicitFTPTLS.sock self' =
                   Some {| ImplicitFTPTLS.fileno := ImplicitFTPTLS.fileno v;
                           ImplicitFTPTLS.wrapped_by :=
                             Some (ImplicitFTPTLS.context self) |}
             | Some e => r = Raise e ∧ self' = self
             end
       end).
Proof.
  intros handshake. split; [|split].
  - intros ctx values. by apply assign_all_secure.
  - intros self value. apply sock_setter_secure.
  - intros self value. unfold ImplicitFTPTLS.sock_setter, ImplicitFTPTLS.wrap_socket.
    destruct value as [v|]; [|done].
    destruct (ImplicitFTPTLS.isinstance_SSLSocket v); simpl; [done|].
    by destruct (handshake (ImplicitFTPTLS.context self) v).
Qed.

Lemma sock_is_always_tls_wrapped_witness :
  ImplicitFTPTLS.sock_is_secure
    (ImplicitFTPTLS.assign_all (fun _ _ => None) (ImplicitFTPTLS.__init__ 7)
       [Some {| ImplicitFTPTLS.fileno := 3; ImplicitFTPTLS.wrapped_by := None |};
        None;
        Some {| ImplicitFTPTLS.fileno := 4; ImplicitFTPTLS.wrapped_by := Some 7 |};
        Some {| ImplicitFTPTLS.fileno := 5; ImplicitFTPTLS.wrapped_by := None |}]).
Proof.
  exact (proj1 (sock_is_always_tls_wrapped (fun _ _ => None)) 7 _).
Defined.



(** ** Traced clients *)

Section TracedFacts.
Context {St : Type} (c : FTP St).

Lemma perform_observe {A} (k : call) (inj : A → value) (op : Op St A) s log :
  perform (observe k inj op) (s, log) =
    match op s with
    | (Ok a, s') => (Return a, (s', log ++ [ev k (Ok (inj a))]))
    | (Err e, s') => (Raise e, (s', log ++ [ev k (Err e)]))
    end.
Proof. unfold perform, observe. simpl. by destruct (op s) as [[a|e] s']. Qed.

Lemma traced_nlst d s log :
  nlst (traced c) d (s, log) =
    match do_nlst c d s with
    | (Ok names, s') => (Return names, (s', log ++ [ev (Call_nlst d) (Ok (V_names names))]))
    | (Err e, s') => (Raise e, (s', log ++ [ev (Call_nlst d) (Err e)]))
    end.
Proof. apply perform_observe. Qed.

Lemma traced_delete d s log :
  delete (traced c) d (s, log) =
    match do_delete c d s with
    | (Ok resp, s') => (Return resp, (s', log ++ [ev (Call_delete d) (Ok (V_str resp))]))
    | (Err e, s') => (Raise e, (s', log ++ [ev (Call_delete d) (Err e)]))
    end.
Proof. apply perform_observe. Qed.

Lemma traced_rename a b s log :
  rename (traced c) a b (s, log) =
    match do_rename c a b s with
    | (Ok _, s') => (Return tt, (s', log ++ [ev (Call_rename a b) (Ok V_None)]))
    | (Err e, s') => (Raise e, (s', log ++ [ev (Call_rename a b) (Err e)]))
    end.
Proof.
  unfold rename. cbn [do_rename traced]. rewrite perform_observe.
  by destruct (do_rename c a b s) as [[[]|e] s'].
Qed.

End TracedFacts.

(** ** The loop of [move_files] *)

Section MoveFacts.
Context (self : backend) (destination_path : string).

Lemma move_files_loop_cons {St} (client : FTP St) f fs :
  move_files_loop self client (f :: fs) destination_path =
    (result <- try_except (nlst client (dest_file_path destination_path f))
                 (fun e => if isinstance_ftplib_Error e then ret [] else raise e) ;;
     (match result with
      | [] => ret tt
      | _ :: _ => _ <- delete client (dest_file_path destination_path f) ;; ret tt
      end) ;;
     rename client (_fullpath self f)
       (_fullpath self (dest_file_path destination_path f)) ;;
     move_files_loop self client fs destination_path).
Proof. reflexivity. Qed.


(** What a run of the loop leaves in the log. *)
Lemma move_files_loop_log {St} (c : FTP St) files s log r s' log' :
  move_files_loop self (traced c) files destination_path (s, log)
    = (r, (s', log')) →
  ∃ evs, log' = log ++ evs ∧ move_log self destination_path files r evs.
Proof.
  revert s log. induction files as [|f fs IH]; intros s log Hrun.
  - simpl in Hrun. unfold ret in Hrun. simplify_eq.
    exists []. rewrite app_nil_r. split; [done|constructor].
  - rewrite move_files_loop_cons in Hrun.
    set (d := dest_file_path destination_path f) in *.
    unfold bind at 1, try_except in Hrun. rewrite traced_nlst in Hrun.
    destruct (do_nlst c d s) as [[names|e] s1].
    + (* the listing returned *)
      pose proof (probed_listing d names) as Hprobe.
      destruct names as [|n names]; simpl in Hprobe.
      * unfold bind at 1 in Hrun. unfold ret at 1 in Hrun.
        unfold bind at 1 in Hrun. rewrite traced_rename in Hrun.
        destruct (do_rename c _ _ s1) as [[[]|e] s2].
        -- apply IH in Hrun as (evs & -> & Hlog).
           exists ([ev (Call_nlst d) (Ok (V_names []))
                   ; ev (rename_call self destination_path f) (Ok V_None)] ++ evs).
           split; [by rewrite <- !app_assoc|].
           apply move_log_moved; [by apply moved_free|done].
        -- simplify_eq.
           exists [ev (Call_nlst d) (Ok (V_names []))
                  ; ev (rename_call self destination_path f) (Err e)].
           split; [by rewrite <- !app_assoc|].
           apply move_log_stopped. by apply stopped_rename_free.
      * unfold bind at 1 in Hrun. unfold bind at 1 in Hrun.
        rewrite traced_delete in Hrun.
        destruct (do_delete c d s1) as [[resp|e] s2].
        -- unfold ret at 1 in Hrun. unfold bind at 1 in Hrun.
           rewrite traced_rename in Hrun.
           destruct (do_rename c _ _ s2) as [[[]|e] s3].
           ++ apply IH in Hrun as (evs & -> & Hlog).
              exists ([ev (Call_nlst d) (Ok (V_names (n :: names)))
                      ; ev (Call_delete d) (Ok (V_str resp))
                      ; ev (rename_call self destination_path f) (Ok V_None)] ++ evs).
              split; [by rewrite <- !app_assoc|].
              apply move_log_moved; [by apply moved_over|done].
           ++ simplify_eq.
              exists [ev (Call_nlst d) (Ok (V_names (n :: names)))
                     ; ev (Call_delete d) (Ok (V_str resp))
                     ; ev (rename_call self destination_path f) (Err e)].
              split; [by rewrite <- !app_assoc|].
              apply move_log_stopped. by apply stopped_rename_over.
        -- simplify_eq.
           exists [ev (Call_nlst d) (Ok (V_names (n :: names)))
                  ; ev (Call_delete d) (Err e)].
           split; [by rewrite <- !app_assoc|].
           apply move_log_stopped. by apply stopped_delete.
    + (* the listing raised *)
      destruct (isinstance_ftplib_Error e) eqn:He.
      * pose proof (probed_refused d e He) as Hprobe.
        unfold ret at 1 in Hrun. unfold bind at 1 in Hrun.
        unfold ret at 1 in Hrun. unfold bind at 1 in Hrun.
        rewrite traced_rename in Hrun.
        destruct (do_rename c _ _ s1) as [[[]|e'] s2].
        -- apply IH in Hrun as (evs & -> & Hlog).
           exists ([ev (Call_nlst d) (Err e)
                   ; ev (rename_call self destination_path f) (Ok V_None)] ++ evs).
           split; [by rewrite <- !app_assoc|].
           apply move_log_moved; [by apply moved_free|done].
        -- simplify_eq.
           exists [ev (Call_nlst d) (Err e)
                  ; ev (rename_call self destination_path f) (Err e')].
           split; [by rewrite <- !app_assoc|].
           apply move_log_stopped. by apply stopped_rename_free.
      * unfold raise in Hrun. simplify_eq.
        exists [ev (Call_nlst d) (Err e)].
        split; [done|]. apply move_log_stopped. by apply stopped_probe.
Qed.

End MoveFacts.

(** ** Sessions under observation *)

Section TracedSession.
Context {St : Type} (ftplib : ftp_class → FTP St).

Lemma perform_observe_unit (c : FTP St) (k : call) (op : Op St unit) s log :
  perform (observe k no_value op) (s, log) =
    match op s with
    | (Ok _, s') => (Return tt, (s', log ++ [ev k (Ok V_None)]))
    | (Err e, s') => (Raise e, (s', log ++ [ev k (Err e)]))
    end.
Proof. rewrite perform_observe. by destruct (op s) as [[[]|e] s']. Qed.

Lemma ftp_setup_log self (c : FTP St) security prot_p_flag s log s0 log0 :
  ftp_setup self (traced c) security prot_p_flag (s, log) = (Return tt, (s0, log0)) →
  log0 = log ++ ((fun k => ev k (Ok V_None)) <$>
           ((match truthy security with
             | Some v => [Call_set_ssl_version v]
             | None => []
             end) ++
            [Call_connect (ftp_server self) (ftp_port self);
             Call_login (ftp_login self) (ftp_password self)] ++
            (if prot_p_flag then [Call_prot_p] else []) ++
            (if ftp_passive self then [Call_set_pasv true] else []))).
Proof.
  unfold ftp_setup. intros H.
  unfold bind at 1 in H.
  assert (∃ s1 log1,
    (connect (traced c) (ftp_server self) (ftp_port self) ;;
     login (traced c) (ftp_login self) (ftp_password self) ;;
     (if prot_p_flag then prot_p (traced c) else ret tt) ;;
     (if ftp_passive self then set_pasv (traced c) true else ret tt)) (s1, log1)
      = (Return tt, (s0, log0)) ∧
    log1 = log ++ ((fun k => ev k (Ok V_None)) <$>
             match truthy security with
             | Some v => [Call_set_ssl_version v]
             | None => []
             end)) as (s1 & log1 & H1 & Hlog1).
  { destruct (truthy security) as [v|]; simpl in *.
    - by eexists _, _.
    - exists s, log. by rewrite app_nil_r. }
  clear H. rename H1 into H. rewrite fmap_app, app_assoc, <- Hlog1. clear Hlog1.
  unfold bind at 1, connect in H. cbn [do_connect traced] in H.
  rewrite perform_observe_unit in H; [|done].
  destruct (do_connect c _ _ s1) as [[[]|e] s2]; [|done].
  unfold bind at 1, login in H. cbn [do_login traced] in H.
  rewrite perform_observe_unit in H; [|done].
  destruct (do_login c _ _ s2) as [[[]|e] s3]; [|done].
  unfold bind at 1 in H.
  destruct prot_p_flag.
  - unfold prot_p in H. cbn [do_prot_p traced] in H.
    rewrite perform_observe_unit in H; [|done].
    destruct (do_prot_p c s3) as [[[]|e] s4]; [|done].
    destruct (ftp_passive self).
    + unfold set_pasv in H. cbn [do_set_pasv traced] in H.
      rewrite perform_observe_unit in H; [|done].
      destruct (do_set_pasv c true s4) as [[[]|e] s5]; [|done].
      simplify_eq. simpl. by rewrite <- !app_assoc.
    + unfold ret in H. simplify_eq. simpl. by rewrite <- !app_assoc.
  - unfold ret at 1 in H.
    destruct (ftp_passive self).
    + unfold set_pasv in H. cbn [do_set_pasv traced] in H.
      rewrite perform_observe_unit in H; [|done].
      destruct (do_set_pasv c true s3) as [[[]|e] s5]; [|done].
      simplify_eq. simpl. by rewrite <- !app_assoc.
    + unfold ret in H. simplify_eq. simpl. by rewrite <- !app_assoc.
Qed.

(** An opened session is that of one client object, and its opening made
    the opening calls, once each, all of which returned. *)
Lemma ftp_enter_log self s log client s0 log0 :
  ftp_enter (fun cls => traced (ftplib cls)) self (s, log)
    = (Return client, (s0, log0)) →
  (∃ cls, client = traced (ftplib cls)) ∧ log0 = log ++ opened self.
Proof.
  unfold ftp_enter, ftp_choose, opened, opening_calls, security_of, prot_p_of.
  case_bool_decide as Hin; [|done].
  intros H. unfold bind at 1 in H.
  case_bool_decide as Hftp.
  { unfold ret at 1 in H.
    destruct (ftp_setup _ _ _ _ _) as [[[]|e|] [s1 log1]] eqn:Hsetup; simplify_eq.
    split; [by eexists|]. by apply ftp_setup_log in Hsetup. }
  case_bool_decide as Htls.
  { destruct (isinstance_str _) as [reason|] eqn:Hstr; [done|].
    unfold ret at 1 in H.
    destruct (ftp_setup _ _ _ _ _) as [[[]|e|] [s1 log1]] eqn:Hsetup; simplify_eq.
    split; [by eexists|]. by apply ftp_setup_log in Hsetup. }
  unfold ret at 1 in H.
  destruct (ftp_setup _ _ _ _ _) as [[[]|e|] [s1 log1]] eqn:Hsetup; simplify_eq.
  split; [by eexists|]. by apply ftp_setup_log in Hsetup.
Qed.

End TracedSession.

(** ** [move_files] *)

Lemma traced_exit {St} (c : FTP St) s log :
  do_exit (traced c) (s, log) = (do_exit c s, log ++ [ev Call_exit (Ok V_None)]).
Proof. reflexivity. Qed.






(** [get], [list] and [delete] make one call between the opening and the
    exit, and its path is the resolved one. *)
Lemma single_call_operations_resolve_paths
    {St} (ftplib : ftp_class → FTP St) (repr : exn → string) (self : backend)
    (relative_path : string) s log client s0 log0 :
  ftp_enter (fun cls => traced (ftplib cls)) self (s, log)
    = (Return client, (s0, log0)) →
  (∃ reply,
     snd (snd (get (fun cls => traced (ftplib cls)) repr self relative_path (s, log)))
     = log0 ++ [ev (Call_retrbinary ("RETR " +:+ _fullpath self relative_path)) reply;
                ev Call_exit (Ok V_None)]) ∧
  (∃ reply,
     snd (snd (list_ (fun cls => traced (ftplib cls)) self relative_path (s, log)))
     = log0 ++ [ev (Call_nlst (_fullpath self relative_path)) reply;
                ev Call_exit (Ok V_None)]) ∧
  (∃ reply,
     snd (snd (delete_ (fun cls => traced (ftplib cls)) self relative_path (s, log)))
     = log0 ++ [ev (Call_delete (_fullpath self relative_path)) reply;
                ev Call_exit (Ok V_None)]).
Proof.
  intros Henter.
  destruct (ftp_enter_log ftplib _ _ _ _ _ _ Henter) as [[cls ->] _].
  split; [|split].
  - unfold get. rewrite (ftp_entered _ _ _ _ _ _ Henter).
    unfold try_except, bind, retrbinary. cbn [do_retrbinary traced].
    rewrite perform_observe.
    destruct (do_retrbinary (ftplib cls) _ s0) as [[blocks|e] s1].
    + eexists. unfold ret. rewrite traced_exit. simpl. by rewrite <- app_assoc.
    + eexists. destruct (isinstance_ftplib_Error e); unfold raise;
        rewrite traced_exit; simpl; by rewrite <- app_assoc.
  - unfold list_. rewrite (ftp_entered _ _ _ _ _ _ Henter).
    unfold try_except. rewrite traced_nlst.
    destruct (do_nlst (ftplib cls) _ s0) as [[names|e] s1].
    + eexists. rewrite traced_exit. simpl. by rewrite <- app_assoc.
    + eexists. destruct (isinstance_OSError e); [destruct (errno_is_ENOENT e)|];
        unfold raise, ret; rewrite traced_exit; simpl; by rewrite <- app_assoc.
  - unfold delete_. rewrite (ftp_entered _ _ _ _ _ _ Henter).
    rewrite traced_delete.
    destruct (do_delete (ftplib cls) _ s0) as [[resp|e] s1];
      eexists; rewrite traced_exit; simpl; by rewrite <- app_assoc.
Qed.

(** C4 fails in [move_files]: whatever the client, the first call the loop
    makes for a file lists
    [os.path.join(destination_path, os.path.basename(file))] as it is, not
    [_fullpath] of it, and the delete that follows a non-empty listing gets
    the same path.  Under the root [/srv/], moving [a/x.txt] to [b] lists
    and deletes [b/x.txt] and then renames [/srv/a/x.txt] to
    [/srv/b/x.txt]. *)
Theorem move_files_probes_unresolved_path :
  (∀ St (c : FTP St) (self : backend) (f : string) (fs : list string)
     (destination_path : string) s log r s' log',
     move_files_loop self (traced c) (f :: fs) destination_path (s, log)
       = (r, (s', log')) →
     ∃ reply rest,
       log' = log ++
         ev (Call_nlst (os_path.join destination_path (os_path.basename f))) reply
         :: rest) ∧
  calls (snd (snd (move_files
      (fun cls => traced (scripted.ftplib sample.none_fails sample.taken (fun _ => []) cls))
      sample.explicit_tls ["a/x.txt"] "b" (tt, []))))
  = [Call_connect "ftp.example.org" 21; Call_login "u" "secret"; Call_prot_p;
     Call_nlst "b/x.txt"; Call_delete "b/x.txt";
     Call_rename "/srv/a/x.txt" "/srv/b/x.txt"; Call_exit] ∧
  _fullpath sample.explicit_tls "b/x.txt" = "/srv/b/x.txt".
Proof.
  split; [|split; reflexivity].
  intros St c self f fs destination_path s log r s' log' Hrun.
  apply move_files_loop_log in Hrun as (evs & -> & Hlog).
  inversion Hlog as [|f' fs' r' evs1 evs2 Hmoved Hrest|f' fs' e evs' Hstopped]; subst.
  - inversion Hmoved as [probe Hprobe|probe resp Hprobe]; subst;
      inversion Hprobe; subst; by eexists _, _.
  - inversion Hstopped as [He|probe Hprobe|probe Hprobe|probe resp Hprobe]; subst;
      [by eexists _, _|..]; inversion Hprobe; subst; by eexists _, _.
Qed.

(** ** The server in memory *)

Section MemftpFacts.
Import memftp.
Variable no_such_file : exn.
Variable repr : exn → string.

Lemma strip_prefix_app pre x : strip_prefix pre (pre +:+ x) = Some x.
Proof.
  induction pre as [|c pre IH]; [done|].
  rewrite string_app_String. simpl. by rewrite Ascii.eqb_refl.
Qed.

Lemma join_absolute a p : os_path.startswith_sep p = true → os_path.join a p = p.
Proof. unfold os_path.join. by intros ->. Qed.

Lemma absolute_nonempty p :
  os_path.startswith_sep p = true → os_path.nonempty p = true.
Proof. by destruct p. Qed.

Lemma concat_blocks_upto n (d : bytes) :
  (length d ≤ n)%nat → concat (blocks_upto n d) = d.
Proof.
  revert d. induction n as [|n IH]; intros d Hlen.
  - destruct d; [done|simpl in Hlen; lia].
  - destruct d as [|b d]; [done|].
    change (blocks_upto (S n) (b :: d))
      with (take 8192 (b :: d) :: blocks_upto n (drop 8192 (b :: d))).
    rewrite concat_cons, IH; [apply take_drop|].
    rewrite length_drop. simpl in *. lia.
Qed.

(** The blocks of a download put together are the file. *)
Lemma concat_blocks (d : bytes) : concat (blocks d) = d.
Proof. by apply concat_blocks_upto. Qed.

(** The calls [add] makes before the upload leave the account alone. *)
Lemma m_mkd_account p s : account (snd (m_mkd no_such_file p s)) = account s.
Proof. unfold m_mkd. by repeat case_match. Qed.

Lemma m_cwd_account p s : account (snd (m_cwd no_such_file p s)) = account s.
Proof. unfold m_cwd. by repeat case_match. Qed.

Lemma ftp_mkdirs_account fuel path s :
  account (snd (ftp_mkdirs fuel (client no_such_file) path s)) = account s.
Proof.
  revert path s. induction fuel as [|fuel IH]; intros path s; [done|].
  pose proof (m_mkd_account path s) as Hmkd.
  simpl. unfold try_except, mkd, perform. cbn [do_mkd client].
  destruct (m_mkd no_such_file path s) as [[[]|e] s1]; simpl in *; [done|].
  destruct (isinstance_OSError e); [|done].
  destruct (errno_is_ENOENT e && os_path.nonempty path); [|done].
  unfold bind. specialize (IH (os_path.dirname path) s1).
  destruct (ftp_mkdirs fuel (client no_such_file) (os_path.dirname path) s1)
    as [[[]|e'|] s2]; simpl in *; try congruence.
  pose proof (m_mkd_account path s2) as Hmkd2.
  unfold perform. cbn [do_mkd client].
  destruct (m_mkd no_such_file path s2) as [[[]|e'] s3]; simpl in *; congruence.
Qed.

Lemma add_chdir_account fuel full_path s :
  account (snd (add_chdir fuel (client no_such_file) full_path s)) = account s.
Proof.
  unfold add_chdir. destruct (os_path.nonempty _); [|done].
  pose proof (m_cwd_account (os_path.dirname full_path) s) as Hcwd.
  unfold try_except, cwd, perform. cbn [do_cwd client].
  destruct (m_cwd no_such_file (os_path.dirname full_path) s) as [[[]|e] s1];
    simpl in *; [done|].
  destruct (isinstance_OSError e); [|done].
  destruct (errno_is_ENOENT e); [|done].
  by rewrite ftp_mkdirs_account.
Qed.

(** An upload under an absolute name that returned has stored the data
    under that name. *)
Lemma m_storbinary_stored full_path data s s' :
  os_path.startswith_sep full_path = true →
  m_storbinary no_such_file ("STOR " +:+ full_path) data s = (Ok tt, s') →
  files s' !! full_path = Some data ∧ account s' = account s.
Proof.
  intros Habs. unfold m_storbinary.
  rewrite (strip_prefix_app "STOR " full_path), (absolute_nonempty _ Habs).
  unfold resolve. rewrite (join_absolute _ _ Habs). simpl.
  repeat case_match; intros; simplify_eq. simpl.
  by rewrite lookup_insert_eq.
Qed.

(** A download of an absolute name gives the file stored under it. *)
Lemma m_retrbinary_stored full_path data s :
  os_path.startswith_sep full_path = true →
  files s !! full_path = Some data →
  m_retrbinary no_such_file ("RETR " +:+ full_path) s = (Ok (blocks data), s).
Proof.
  intros Habs Hfile. unfold m_retrbinary.
  rewrite (strip_prefix_app "RETR " full_path), (absolute_nonempty _ Habs).
  unfold resolve. rewrite (join_absolute _ _ Habs). simpl. by rewrite Hfile.
Qed.

Lemma ftp_enter_memftp self s c s0 :
  ftp_enter (ftplib no_such_file) self s = (Return c, s0) →
  c = client no_such_file ∧ s0 = set_pwd (home s) (set_pwd (home s) s) ∧
  (ftp_login self, ftp_password self) = account s.
Proof.
  unfold ftp_enter, ftp_choose.
  case_bool_decide as Hin; [|done].
  unfold bind at 1.
  assert (∀ security prot_p_flag,
    match ftp_setup self (client no_such_file) security prot_p_flag s with
    | (Return _, s') => (Return (client no_such_file), s')
    | (Raise e, s') => (Raise e, do_exit (client no_such_file) s')
    | (Diverge, s') => (Diverge, do_exit (client no_such_file) s')
    end = (Return c, s0) →
    c = client no_such_file ∧ s0 = set_pwd (home s) (set_pwd (home s) s) ∧
    (ftp_login self, ftp_password self) = account s) as Hsetup.
  { intros security prot_p_flag. unfold ftp_setup.
    unfold bind, connect, login, prot_p, set_pasv, perform, ret.
    cbn [do_connect do_login do_prot_p do_set_pasv client do_set_ssl_version].
    unfold m_connect, m_login. simpl.
    destruct (truthy security); case_bool_decide; simpl;
      destruct prot_p_flag, (ftp_passive self); simpl; intros; by simplify_eq. }
  case_bool_decide as Hftp; [apply Hsetup|].
  case_bool_decide as Htls; [|apply Hsetup].
  destruct (isinstance_str _); [done|apply Hsetup].
Qed.

Lemma ftp_enter_memftp_again self s c s0 s' :
  ftp_enter (ftplib no_such_file) self s = (Return c, s0) →
  account s' = account s →
  ftp_enter (ftplib no_such_file) self s'
    = (Return (client no_such_file), set_pwd (home s') (set_pwd (home s') s')).
Proof.
  intros Henter Hacc.
  destruct (ftp_enter_memftp _ _ _ _ Henter) as (_ & _ & Hlogin).
  assert (∀ security prot_p_flag,
    ftp_setup self (client no_such_file) security prot_p_flag s'
    = (Return tt, set_pwd (home s') (set_pwd (home s') s'))) as Hsetup.
  { intros security prot_p_flag. unfold ftp_setup.
    unfold bind, connect, login, prot_p, set_pasv, perform, ret.
    cbn [do_connect do_login do_prot_p do_set_pasv client do_set_ssl_version].
    unfold m_connect, m_login. simpl.
    destruct (truthy security); rewrite Hacc, bool_decide_true by done; simpl;
      by destruct prot_p_flag, (ftp_passive self). }
  unfold ftp_enter, ftp_choose in *.
  case_bool_decide as Hin; [|done].
  unfold bind in *.
  case_bool_decide as Hftp.
  { unfold ret. cbv beta iota. by rewrite Hsetup. }
  case_bool_decide as Htls.
  - destruct (isinstance_str _); [done|].
    unfold ret. cbv beta iota. by rewrite Hsetup.
  - unfold ret. cbv beta iota. by rewrite Hsetup.
Qed.

Lemma rstrip_all_sep h : os_path.rstrip h = "" → os_path.all_sep h = true.
Proof.
  induction h as [|ch h IH]; [done|].
  simpl. destruct (os_path.rstrip h); [|done].
  destruct (os_path.is_sep ch); [|done]. intros _. by rewrite IH.
Qed.

(** The parent of an absolute path is absolute. *)
Lemma dirname_absolute p :
  os_path.startswith_sep p = true → os_path.startswith_sep (os_path.dirname p) = true.
Proof.
  intros Hp. unfold os_path.dirname.
  assert (os_path.startswith_sep (fst (os_path.split_rfind p)) = true) as Hhead.
  { destruct p as [|ch p]; [done|]. simpl in *.
    destruct (os_path.split_rfind p) as [h t].
    destruct h; [by rewrite Hp|done]. }
  destruct (os_path.nonempty _ && negb (os_path.all_sep _)) eqn:Hc; [|done].
  apply andb_true_iff in Hc as [_ Hall]. apply negb_true_iff in Hall.
  destruct (fst (os_path.split_rfind p)) as [|ch h]; [done|].
  simpl in *. pose proof (rstrip_all_sep h) as Hr.
  destruct (os_path.rstrip h); [|done].
  rewrite Hhead in Hall. simpl in Hall. rewrite Hr in Hall; done.
Qed.

(** When the directory of the file is there and the name is free for a
    file, [add] returns. *)
Lemma add_returns self relative_path data fuel s c s0 :
  os_path.startswith_sep (_fullpath self relative_path) = true →
  ftp_enter (ftplib no_such_file) self s = (Return c, s0) →
  is_dir s (os_path.dirname (_fullpath self relative_path)) = true →
  is_dir s (_fullpath self relative_path) = false →
  is_locked s (_fullpath self relative_path) = false →
  ∃ s1, add (ftplib no_such_file) repr fuel self relative_path data s = (Return tt, s1).
Proof.
  intros Habs Henter Hparent Hfree Hunlocked.
  destruct (ftp_enter_memftp _ _ _ _ Henter) as (-> & -> & Hlogin).
  unfold add. rewrite (ftp_entered _ _ _ _ _ _ Henter).
  pose proof (dirname_absolute _ Habs) as Hdabs.
  unfold bind, add_chdir. rewrite (absolute_nonempty _ Hdabs).
  unfold try_except, cwd, perform. cbn [do_cwd client].
  unfold m_cwd. rewrite (absolute_nonempty _ Hdabs). simpl.
  unfold resolve. rewrite (join_absolute _ _ Hdabs).
  change (is_dir (set_pwd ?d ?x) ?q) with (is_dir x q).
  unfold is_dir in *. simpl. rewrite Hparent.
  unfold add_store, try_except, storbinary, perform. cbn [do_storbinary client].
  unfold m_storbinary.
  rewrite (strip_prefix_app "STOR " _), (absolute_nonempty _ Habs).
  unfold resolve. rewrite (join_absolute _ _ Habs). simpl.
  unfold is_dir, is_locked in *. simpl. rewrite Hfree, Hunlocked, Hparent. simpl.
  by eexists.
Qed.

End MemftpFacts.

(** The round trip under an absolute root: on the server in memory,
    whichever way a missing name is reported, when the resolved path is
    absolute and [add(relative_path, data)] has
    returned, [get(relative_path)] returns [data], the same bytes in the
    same order; and [add] does return when the session opens, the directory
    of the resolved path is there and the path itself is free for a file. *)
Theorem add_then_get_returns_the_data :
  ∀ (no_such_file : exn) (repr : exn → string) (self : backend)
    (relative_path : string) (data : bytes) (fuel : nat) (s : memftp.server),
    os_path.startswith_sep (_fullpath self relative_path) = true →
    (∀ s1,
       add (memftp.ftplib no_such_file) repr fuel self relative_path data s
         = (Return tt, s1) →
       ∃ s2,
         get (memftp.ftplib no_such_file) repr self relative_path s1
           = (Return data, s2)) ∧
    (∀ c s0,
       ftp_enter (memftp.ftplib no_such_file) self s = (Return c, s0) →
       memftp.is_dir s (os_path.dirname (_fullpath self relative_path)) = true →
       memftp.is_dir s (_fullpath self relative_path) = false →
       memftp.is_locked s (_fullpath self relative_path) = false →
       ∃ s1,
         add (memftp.ftplib no_such_file) repr fuel self relative_path data s
           = (Return tt, s1)).
Proof.
  intros no_such_file repr self relative_path data fuel s Habs.
  split; [|intros c s0; by apply add_returns].
  intros s1 Hadd.
  unfold add in Hadd. rewrite ftp_enter_spec in Hadd.
  destruct (ftp_enter (memftp.ftplib no_such_file) self s)
    as [[c|e|] s0] eqn:Henter; [|done|done].
  destruct (ftp_enter_memftp _ _ _ _ _ Henter) as (-> & Hs0 & Hlogin).
  unfold with_client in Hadd.
  unfold bind in Hadd.
  pose proof (add_chdir_account no_such_file fuel (_fullpath self relative_path) s0)
    as Hacc1.
  destruct (add_chdir fuel (memftp.client no_such_file)
              (_fullpath self relative_path) s0) as [[[]|e|] s0'];
    simpl in Hacc1; [|done|done].
  unfold add_store, try_except, storbinary, perform in Hadd.
  cbn [do_storbinary memftp.client] in Hadd.
  destruct (memftp.m_storbinary no_such_file
              ("STOR " +:+ _fullpath self relative_path) data s0')
    as [[[]|e] s0''] eqn:Hstor.
  2:{ destruct (isinstance_ftplib_Error e); [done|].
      by destruct (isinstance_OSError e). }
  apply m_storbinary_stored in Hstor as [Hfile Hacc2]; [|done].
  simplify_eq. cbn [do_exit memftp.client].
  assert (memftp.account (memftp.set_pwd (memftp.home s0'') s0'') = memftp.account s)
    as Hacc3.
  { simpl. rewrite Hacc2, Hacc1. done. }
  pose proof (ftp_enter_memftp_again no_such_file self s _ _ _ Henter Hacc3) as Hagain.
  unfold get. rewrite (ftp_entered _ _ _ _ _ _ Hagain).
  unfold try_except, bind, retrbinary, perform.
  cbn [do_retrbinary memftp.client].
  rewrite (m_retrbinary_stored no_such_file _ data); [|done|done].
  unfold ret. rewrite concat_blocks. by eexists.
Qed.

Lemma add_then_get_returns_the_data_witness :
  (∃ s2,
     get (memftp.ftplib memftp.enoent) sample.repr sample.plain "a/b.txt"
       (snd (add (memftp.ftplib memftp.enoent) sample.repr 3 sample.plain
               "a/b.txt" [x00; x41; x00] sample.empty_home))
     = (Return [x00; x41; x00], s2)) ∧
  (∃ s2,
     get (memftp.ftplib memftp.error_perm_550) sample.repr sample.plain "c.bin"
       (snd (add (memftp.ftplib memftp.error_perm_550) sample.repr 3 sample.plain
               "c.bin" [] sample.empty_home))
     = (Return [], s2)).
Proof.
  split.
  - apply (proj1 (add_then_get_returns_the_data memftp.enoent sample.repr
                    sample.plain "a/b.txt" [x00; x41; x00] 3 sample.empty_home
                    eq_refl)).
    vm_compute. reflexivity.
  - apply (proj1 (add_then_get_returns_the_data memftp.error_perm_550 sample.repr
                    sample.plain "c.bin" [] 3 sample.empty_home eq_refl)).
    vm_compute. reflexivity.
Defined.


(** C6 fails where the client is [ftplib]'s: a reply [550] to [MKD] is
    raised as [ftplib.error_perm], which is an [ftplib.Error] and no
    [IOError], so the handler [except IOError] of [ftp_mkdirs] does not
    apply.  For every client, when [mkd path] raises an exception that is
    no [OSError], [ftp_mkdirs] raises it after that one call: no parent is
    tried and nothing is retried.  On a server that holds none of [a],
    [a/b], [a/b/c] and reports the missing parent with a [550],
    [ftp_mkdirs client "a/b/c"] raises after the first [mkd] and creates
    nothing. *)
Theorem ftp_mkdirs_gives_up_on_error_perm :
  (∀ St (client : FTP St) fuel path s e s' log,
     do_mkd client path s = (Err e, s') →
     isinstance_OSError e = false →
     ftp_mkdirs (S fuel) (traced client) path (s, log)
     = (Raise e, (s', log ++ [ev (Call_mkd path) (Err e)]))) ∧
  ftp_mkdirs 3 (traced (memftp.client memftp.error_perm_550)) "a/b/c"
    (sample.empty_home, [])
  = (Raise memftp.error_perm_550,
     (sample.empty_home, [ev (Call_mkd "a/b/c") (Err memftp.error_perm_550)])).
Proof.
  split.
  - intros St client fuel path s e s' log Hmkd He.
    simpl. unfold try_except, mkd. cbn [do_mkd traced].
    rewrite perform_observe, Hmkd. simpl. by rewrite He.
  - reflexivity.
Qed.

(** C3 fails where the resolved path is relative and has a directory part:
    [add] enters the directory with [cwd] and then stores under the same
    relative path, which the server resolves from the directory entered,
    while [get] reads the path from the login directory.  With an empty
    root, on a server that holds the directories [a] and [a/a],
    [add("a/b.txt", data)] returns with the data stored as
    [/home/u/a/a/b.txt], and [get("a/b.txt")] then raises
    [FileNotFoundError]. *)
Theorem add_misplaces_relative_upload :
  ∃ s1 s2,
    add (memftp.ftplib memftp.error_perm_550) sample.repr 1 sample.flat
      "a/b.txt" [x01] sample.nested_home = (Return tt, s1) ∧
    memftp.files s1 = {[ "/home/u/a/a/b.txt" := [x01] ]} ∧
    get (memftp.ftplib memftp.error_perm_550) sample.repr sample.flat
      "a/b.txt" s1
    = (Raise (FileNotFoundError "error_perm(...)" (Some memftp.error_perm_550)), s2).
Proof.
  eexists _, _. split; [reflexivity|]. split; reflexivity.
Qed.

(** * Further properties *)

(** ** Opening and leaving a session *)

(** The protocol entries of the security table are all truthy. *)
Lemma table_protocols_truthy key p :
  FTP_SECURITY_TO_PROTOCOL !! key = Some (Protocol p) →
  truthy (Some (Protocol p)) = Some p.
Proof.
  intros H. apply elem_of_list_to_map_2 in H.
  unfold FTP_SECURITY_TO_PROTOCOL_items in H.
  repeat (apply elem_of_cons in H as [H|H]; [by simplify_eq|]).
  by apply elem_of_nil in H.
Qed.

(** X1: a session that opens has made, in this order and once each,
    [connect], [login], [prot_p] unless the encryption is plain [ftp], and
    [set_pasv(True)] when the backend is passive; with implicit TLS and a
    security preference that the table maps to a protocol, [ssl_version] is
    set to it first, and with a preference the table does not hold it is not
    set at all. *)
Theorem session_opening_calls :
  ∀ St (ftplib : ftp_class → FTP St) (self : backend) s log client s0 log0,
    ftp_enter (fun cls => traced (ftplib cls)) self (s, log)
      = (Return client, (s0, log0)) →
    (ftp_encryption self = "ftp" →
     client = traced (ftplib FTP_cls) ∧
     log0 = log ++ returned_None
       ([Call_connect (ftp_server self) (ftp_port self);
         Call_login (ftp_login self) (ftp_password self)] ++ pasv_calls self)) ∧
    (ftp_encryption self = "tls_explicit" →
     client = traced (ftplib FTP_TLS_cls) ∧
     log0 = log ++ returned_None
       ([Call_connect (ftp_server self) (ftp_port self);
         Call_login (ftp_login self) (ftp_password self);
         Call_prot_p] ++ pasv_calls self)) ∧
    (ftp_encryption self = "tls" →
     client = traced (ftplib ImplicitFTPTLS_cls) ∧
     (∀ p, FTP_SECURITY_TO_PROTOCOL !! ftp_security self = Some (Protocol p) →
        log0 = log ++ returned_None
          ([Call_set_ssl_version p;
            Call_connect (ftp_server self) (ftp_port self);
            Call_login (ftp_login self) (ftp_password self);
            Call_prot_p] ++ pasv_calls self)) ∧
     (FTP_SECURITY_TO_PROTOCOL !! ftp_security self = None →
        log0 = log ++ returned_None
          ([Call_connect (ftp_server self) (ftp_port self);
            Call_login (ftp_login self) (ftp_password self);
            Call_prot_p] ++ pasv_calls self))).
Proof.
  intros St ftplib self s log client s0 log0 Henter.
  destruct (ftp_enter_log ftplib _ _ _ _ _ _ Henter) as [_ ->].
  assert (∀ cls, ftp_choose (fun cls => traced (ftplib cls)) self (s, log)
                 = (Return (traced (ftplib cls), security_of self, prot_p_of self), (s, log)) →
                 client = traced (ftplib cls)) as Hclient.
  { intros cls Hchoose. revert Henter. unfold ftp_enter.
    case_bool_decide as Hin; [|done].
    unfold bind at 1. rewrite Hchoose.
    destruct (ftp_setup _ _ _ _ _) as [[[]|e|] st]; intros; by simplify_eq. }
  unfold opened, opening_calls, security_of, prot_p_of, returned_None, pasv_calls in *.
  split; [|split].
  - intros Henc. split.
    + apply Hclient. unfold ftp_choose. by rewrite Henc.
    + by rewrite Henc.
  - intros Henc. split.
    + apply Hclient. unfold ftp_choose. by rewrite Henc.
    + by rewrite Henc.
  - intros Henc.
    assert (isinstance_str (FTP_SECURITY_TO_PROTOCOL !! ftp_security self) = None)
      as Hstr.
    { revert Henter. unfold ftp_enter, ftp_choose. rewrite Henc. simpl.
      unfold bind at 1.
      by destruct (isinstance_str (FTP_SECURITY_TO_PROTOCOL !! ftp_security self)). }
    split; [|split].
    + apply Hclient. unfold ftp_choose. rewrite Henc. simpl. by rewrite Hstr.
    + intros p Hp. rewrite Henc. simpl. rewrite Hp.
      by rewrite (table_protocols_truthy _ _ Hp).
    + intros Hnone. rewrite Henc. simpl. by rewrite Hnone.
Qed.

Lemma session_opening_calls_witness :
  (opened (sample.implicit_tls "tlsv1_2") : list event)
  = [] ++ returned_None
      ([Call_set_ssl_version PROTOCOL_TLSv1_2;
        Call_connect "ftp.example.org" 990;
        Call_login "u" "secret";
        Call_prot_p] ++ pasv_calls (sample.implicit_tls "tlsv1_2")).
Proof.
  exact (proj1 (proj2 (proj2 (proj2 (session_opening_calls unit
           (scripted.ftplib sample.none_fails (fun _ => []) (fun _ => []))
           (sample.implicit_tls "tlsv1_2") tt [] _ tt _ eq_refl)) eq_refl))
           PROTOCOL_TLSv1_2 eq_refl).
Defined.

(** X2: with an encryption that is none of [ftp], [tls], [tls_explicit],
    every operation of the adapter raises the [RuntimeError] of a generator
    that did not yield, and nothing is called on any client. *)
Theorem unknown_encryption_raises_RuntimeError :
  ∀ St (ftplib : ftp_class → FTP St) (repr : exn → string) (self : backend),
    ftp_encryption self ∉ ["ftp"; "tls"; "tls_explicit"] →
    ∀ (st : St * list event) fuel relative_path data files destination_path,
      let lib := fun cls => traced (ftplib cls) in
      let stop {A} : outcome A * (St * list event) :=
        (Raise (RuntimeError "generator didn't yield"), st) in
      add lib repr fuel self relative_path data st = stop ∧
      get lib repr self relative_path st = stop ∧
      list_ lib self relative_path st = stop ∧
      move_files lib self files destination_path st = stop ∧
      delete_ lib self relative_path st = stop ∧
      validate_config lib self st = stop.
Proof.
  intros St ftplib repr self Hnot st fuel relative_path data files destination_path.
  unfold add, get, list_, move_files, delete_, validate_config, ftp.
  rewrite bool_decide_false by done. done.
Qed.

Lemma unknown_encryption_raises_RuntimeError_witness :
  validate_config
    (fun cls => traced (scripted.ftplib sample.none_fails (fun _ => []) (fun _ => []) cls))
    sample.unknown_encryption (tt, [])
  = (Raise (RuntimeError "generator didn't yield"), (tt, [])).
Proof.
  refine (proj2 (proj2 (proj2 (proj2 (proj2
    (unknown_encryption_raises_RuntimeError unit
       (scripted.ftplib sample.none_fails (fun _ => []) (fun _ => []))
       sample.repr sample.unknown_encryption _ (tt, []) 0%nat "" [] [] "")))))).
  intros Hin. repeat (apply elem_of_cons in Hin as [Hin|Hin]; [discriminate|]).
  by apply elem_of_nil in Hin.
Defined.




(** X4: a run of [with ftp(backend) as client:] either is stopped by the
    configuration before anything is called (a disabled security, or an
    unknown encryption), or ends with [FTP.__exit__] as the last thing done
    on the client, whether the opening or the body returned or raised. *)
Theorem session_is_always_left :
  ∀ St (ftplib : ftp_class → FTP St) (self : backend) A
    (body : FTP (St * list event) → M (St * list event) A) st,
    let '(r, st') := ftp (fun cls => traced (ftplib cls)) self body st in
    (st' = st ∧
     (r = Raise (RuntimeError "generator didn't yield") ∨
      ∃ reason,
        r = Raise (UserError reason) ∧
        FTP_SECURITY_TO_PROTOCOL !! ftp_security self = Some (Str reason))) ∨
    last (snd st') = Some (ev Call_exit (Ok V_None)).
Proof.
  intros St ftplib self A body st. unfold ftp.
  case_bool_decide as Hin; [|left; by split; [|left]].
  unfold bind at 1, ftp_choose.
  assert (∀ cls security prot_p_flag,
    let '(r, st') :=
      with_client (traced (ftplib cls))
        (ftp_setup self (traced (ftplib cls)) security prot_p_flag ;;
         body (traced (ftplib cls))) st in
    last (snd st') = Some (ev Call_exit (Ok V_None))) as Hwith.
  { intros cls security prot_p_flag. unfold with_client.
    destruct ((_ ;; _) st) as [r [s' log']]. simpl. apply last_snoc. }
  case_bool_decide as Hftp.
  { unfold ret at 1. specialize (Hwith FTP_cls None false).
    destruct (with_client _ _ st). by right. }
  case_bool_decide as Htls.
  - destruct (FTP_SECURITY_TO_PROTOCOL !! ftp_security self) as [[p|reason]|] eqn:Hsec;
      simpl.
    + specialize (Hwith ImplicitFTPTLS_cls (Some (Protocol p)) true).
      destruct (with_client _ _ st). by right.
    + left. split; [done|]. right. by exists reason.
    + specialize (Hwith ImplicitFTPTLS_cls None true).
      destruct (with_client _ _ st). by right.
  - unfold ret at 1. specialize (Hwith FTP_TLS_cls None true).
    destruct (with_client _ _ st). by right.
Qed.




(** ** The single operations *)









(** ** More on [ftp_mkdirs] *)

Lemma traced_mkd {St} (c : FTP St) p s log :
  mkd (traced c) p (s, log) =
    match do_mkd c p s with
    | (Ok _, s') => (Return tt, (s', log ++ [ev (Call_mkd p) (Ok V_None)]))
    | (Err e, s') => (Raise e, (s', log ++ [ev (Call_mkd p) (Err e)]))
    end.
Proof.
  unfold mkd. cbn [do_mkd traced]. rewrite perform_observe.
  by destruct (do_mkd c p s) as [[[]|e] s'].
Qed.

Lemma ancestor_dirname k path :
  ancestor k (os_path.dirname path) = ancestor (S k) path.
Proof. unfold ancestor. by rewrite Nat.iter_succ_r. Qed.

(** What a run of [ftp_mkdirs] leaves in the log. *)
Lemma ftp_mkdirs_log {St} (c : FTP St) fuel path s log r s' log' :
  ftp_mkdirs fuel (traced c) path (s, log) = (r, (s', log')) →
  ∃ evs,
    log' = log ++ evs ∧
    Forall (fun ev => ∃ k, ev_call ev = Call_mkd (ancestor k path)) evs ∧
    (length evs ≤ 2 * fuel)%nat ∧
    (r = Return tt → last evs = Some (ev (Call_mkd path) (Ok V_None))).
Proof.
  revert path s log r s' log'.
  induction fuel as [|fuel IH]; intros path s log r s' log' Hrun.
  - simpl in Hrun. unfold diverge in Hrun. simplify_eq.
    exists []. rewrite app_nil_r. by repeat split.
  - simpl in Hrun. unfold try_except in Hrun. rewrite traced_mkd in Hrun.
    assert (∀ reply, ∃ k, ev_call (ev (Call_mkd path) reply) = Call_mkd (ancestor k path))
      as Hself by (intros reply; by exists 0%nat).
    destruct (do_mkd c path s) as [[[]|e] s1].
    + simplify_eq. exists [ev (Call_mkd path) (Ok V_None)].
      repeat split; [by apply Forall_singleton|simpl; lia].
    + destruct (isinstance_OSError e);
        [destruct (errno_is_ENOENT e && os_path.nonempty path)|].
      * unfold bind in Hrun.
        destruct (ftp_mkdirs fuel (traced c) (os_path.dirname path)
                    (s1, log ++ [ev (Call_mkd path) (Err e)]))
          as [r1 [s2 log2]] eqn:Hrec.
        apply IH in Hrec as (evs1 & -> & Hall & Hlen & Hlast).
        assert (Forall (fun ev => ∃ k, ev_call ev = Call_mkd (ancestor k path)) evs1)
          as Hall'.
        { eapply Forall_impl; [exact Hall|].
          intros ev' [k Hk]. exists (S k). by rewrite <- ancestor_dirname. }
        destruct r1 as [[]|e1|].
        -- rewrite traced_mkd in Hrun.
           destruct (do_mkd c path s2) as [[[]|e2] s3]; simplify_eq.
           ++ exists (ev (Call_mkd path) (Err e) :: evs1 ++ [ev (Call_mkd path) (Ok V_None)]).
              repeat split.
              ** by rewrite <- !app_assoc.
              ** apply Forall_cons; split; [done|].
                 apply Forall_app; split; [done|by apply Forall_singleton].
              ** simpl. rewrite length_app. simpl. lia.
              ** intros _. change (ev (Call_mkd path) (Err e) :: evs1 ++ ?l)
                   with ((ev (Call_mkd path) (Err e) :: evs1) ++ l).
                 apply last_snoc.
           ++ exists (ev (Call_mkd path) (Err e) :: evs1 ++ [ev (Call_mkd path) (Err e2)]).
              repeat split.
              ** by rewrite <- !app_assoc.
              ** apply Forall_cons; split; [done|].
                 apply Forall_app; split; [done|by apply Forall_singleton].
              ** simpl. rewrite length_app. simpl. lia.
              ** done.
        -- simplify_eq. exists (ev (Call_mkd path) (Err e) :: evs1).
           repeat split; [by rewrite <- !app_assoc|by apply Forall_cons|simpl; lia|done].
        -- simplify_eq. exists (ev (Call_mkd path) (Err e) :: evs1).
           repeat split; [by rewrite <- !app_assoc|by apply Forall_cons|simpl; lia|done].
      * unfold raise in Hrun. simplify_eq. exists [ev (Call_mkd path) (Err e)].
        repeat split; [by apply Forall_singleton|simpl; lia|done].
      * unfold raise in Hrun. simplify_eq. exists [ev (Call_mkd path) (Err e)].
        repeat split; [by apply Forall_singleton|simpl; lia|done].
Qed.

(** X8: [ftp_mkdirs] calls nothing but [mkd], and only on [path] and on
    what [os.path.dirname] makes of it when applied again and again; it
    changes no working directory and removes nothing.  A run of at most
    [fuel] nested calls makes at most [2 * fuel] calls. *)
Theorem ftp_mkdirs_only_makes_directories :
  ∀ St (c : FTP St) (fuel : nat) (path : string) s log,
    let '(r, (s', log')) := ftp_mkdirs fuel (traced c) path (s, log) in
    ∃ evs,
      log' = log ++ evs ∧
      (length evs ≤ 2 * fuel)%nat ∧
      Forall (fun ev => ∃ k, ev_call ev = Call_mkd (ancestor k path)) evs.
Proof.
  intros St c fuel path s log.
  destruct (ftp_mkdirs fuel (traced c) path (s, log)) as [r [s' log']] eqn:Hrun.
  apply ftp_mkdirs_log in Hrun as (evs & -> & Hall & Hlen & _).
  by exists evs.
Qed.

(** X9: [ftp_mkdirs] returns only when its last call was an [mkd] of [path]
    itself that returned: when it returns, the directory has been made by
    this very run. *)
Theorem ftp_mkdirs_returns_after_mkd :
  ∀ St (c : FTP St) (fuel : nat) (path : string) s log s' log',
    ftp_mkdirs fuel (traced c) path (s, log) = (Return tt, (s', log')) →
    last log' = Some (ev (Call_mkd path) (Ok V_None)).
Proof.
  intros St c fuel path s log s' log' Hrun.
  apply ftp_mkdirs_log in Hrun as (evs & -> & _ & _ & Hlast).
  specialize (Hlast eq_refl).
  destruct evs as [|ev0 evs] using rev_ind; [done|].
  rewrite app_assoc, last_snoc. by rewrite last_snoc in Hlast.
Qed.

Lemma ftp_mkdirs_returns_after_mkd_witness :
  last (snd (snd (ftp_mkdirs 3 (traced (memftp.client memftp.enoent)) "a/b/c"
                    (sample.empty_home, []))))
  = Some (ev (Call_mkd "a/b/c") (Ok V_None)).
Proof.
  exact (ftp_mkdirs_returns_after_mkd memftp.server (memftp.client memftp.enoent)
           3 "a/b/c" sample.empty_home [] _ _ eq_refl).
Defined.

(** ** More on [move_files] *)

Lemma probed_call d probe b : probed d probe b → ev_call probe = Call_nlst d.
Proof. by intros []. Qed.

Lemma move_log_calls self destination_path files evs :
  move_log self destination_path files (Return tt) evs →
  List.filter is_rename (calls evs) = rename_call self destination_path <$> files ∧
  List.filter is_nlst (calls evs)
    = (fun f => Call_nlst (dest_file_path destination_path f)) <$> files.
Proof.
  revert evs. induction files as [|f fs IH]; intros evs Hlog.
  - by inversion Hlog.
  - inversion Hlog as [|f' fs' r' evs1 evs2 Hmoved Hrest|]; subst.
    apply IH in Hrest as [IHr IHn].
    unfold calls in *. rewrite fmap_app, !List.filter_app, IHr, IHn.
    inversion Hmoved as [probe Hprobe|probe resp Hprobe]; subst;
      simpl; rewrite (probed_call _ _ _ Hprobe); done.
Qed.

(** X10: when [move_files] returns, it has listed one destination and made
    one rename for each file, in the order of the list, from
    [_fullpath(file)] to [_fullpath] of the destination joined with the
    file's base name: no file is skipped and none is renamed twice. *)
Theorem move_files_renames_every_file_once :
  ∀ St (ftplib : ftp_class → FTP St) (self : backend) (files : list string)
    (destination_path : string) s log client s0 log0 s1 log1,
    ftp_enter (fun cls => traced (ftplib cls)) self (s, log)
      = (Return client, (s0, log0)) →
    move_files (fun cls => traced (ftplib cls)) self files destination_path (s, log)
      = (Return tt, (s1, log1)) →
    ∃ evs,
      log1 = log0 ++ evs ++ [ev Call_exit (Ok V_None)] ∧
      List.filter is_rename (calls evs)
        = (fun f => Call_rename (_fullpath self f)
                      (_fullpath self
                         (os_path.join destination_path (os_path.basename f))))
            <$> files ∧
      List.filter is_nlst (calls evs)
        = (fun f => Call_nlst (os_path.join destination_path (os_path.basename f)))
            <$> files.
Proof.
  intros St ftplib self files destination_path s log client s0 log0 s1 log1
    Henter Hrun.
  destruct (ftp_enter_log ftplib _ _ _ _ _ _ Henter) as [[cls ->] _].
  unfold move_files in Hrun. rewrite (ftp_entered _ _ _ _ _ _ Henter) in Hrun.
  destruct (move_files_loop self (traced (ftplib cls)) files destination_path (s0, log0))
    as [r [s2 log2]] eqn:Hloop.
  rewrite traced_exit in Hrun. simplify_eq.
  apply move_files_loop_log in Hloop as (evs & -> & Hlog).
  apply move_log_calls in Hlog as [Hr Hn].
  exists evs. split; [by rewrite <- app_assoc|]. by split.
Qed.

Lemma move_files_renames_every_file_once_witness :
  ∃ evs,
    snd (snd (move_files (memftp.ftplib_traced memftp.error_perm_550) sample.plain
                ["a/x.txt"; "a/z.txt"] "b" (sample.two_files, [])))
      = opened sample.plain ++ evs ++ [ev Call_exit (Ok V_None)] ∧
    List.filter is_rename (calls evs)
      = [Call_rename "/home/u/a/x.txt" "/home/u/b/x.txt";
         Call_rename "/home/u/a/z.txt" "/home/u/b/z.txt"] ∧
    List.filter is_nlst (calls evs) = [Call_nlst "b/x.txt"; Call_nlst "b/z.txt"].
Proof.
  exact (move_files_renames_every_file_once memftp.server
           (memftp.ftplib memftp.error_perm_550) sample.plain
           ["a/x.txt"; "a/z.txt"] "b" sample.two_files [] _ sample.two_files
           (opened sample.plain) _ _ eq_refl eq_refl).
Defined.


(** ** More against the server in memory *)

Section MemftpMore.
Import memftp.
Variable repr : exn → string.

(** X11: on a server that reports a missing name with [ENOENT], when the
    directory of the resolved path is missing and its own parent is there,
    [add] makes that directory and then stores the data under the resolved
    path. *)
Theorem add_makes_the_missing_directory :
  ∀ (self : backend) (relative_path : string) (data : bytes) (fuel : nat)
    (s : server) c s0,
    let full_path := _fullpath self relative_path in
    let dirname := os_path.dirname full_path in
    os_path.startswith_sep full_path = true →
    ftp_enter (ftplib enoent) self s = (Return c, s0) →
    is_dir s dirname || is_file s dirname = false →
    is_dir s (os_path.dirname dirname) = true →
    is_dir s full_path || is_locked s full_path = false →
    ∃ s1,
      add (ftplib enoent) repr (S fuel) self relative_path data s = (Return tt, s1) ∧
      dirs s1 = {[ dirname ]} ∪ dirs s ∧
      files s1 = <[ full_path := data ]> (files s).
Proof.
  intros self relative_path data fuel s c s0 full_path dirname Habs Henter
    Hmissing Hparent Hfree.
  destruct (ftp_enter_memftp _ _ _ _ _ Henter) as (-> & -> & Hlogin).
  pose proof (dirname_absolute _ Habs) as Hdabs. fold dirname in Hdabs.
  apply orb_false_iff in Hmissing as [Hnodir Hnofile].
  apply orb_false_iff in Hfree as [Hfdir Hflock].
  assert (full_path ≠ dirname) as Hne.
  { intros Heq. rewrite <- Heq in Hparent, Hnodir. fold dirname in Hparent.
    rewrite <- Heq in Hparent. congruence. }
  unfold add. rewrite (ftp_entered _ _ _ _ _ _ Henter). fold full_path.
  unfold bind, add_chdir. fold dirname. rewrite (absolute_nonempty _ Hdabs).
  (* [cwd] fails: the directory is missing *)
  unfold try_except at 1. unfold cwd, perform. cbn [do_cwd client].
  unfold m_cwd. rewrite (absolute_nonempty _ Hdabs). simpl.
  unfold resolve. rewrite (join_absolute _ _ Hdabs).
  unfold is_dir in *. simpl. rewrite Hnodir. simpl.
  (* [ftp_mkdirs] makes it at once *)
  unfold try_except at 1. unfold mkd, perform. cbn [do_mkd client].
  unfold m_mkd. rewrite (absolute_nonempty _ Hdabs). simpl.
  unfold resolve. rewrite (join_absolute _ _ Hdabs).
  unfold is_dir, is_file in *. simpl. rewrite Hnodir, Hparent. simpl.
  destruct (files s !! dirname) eqn:Hf; [done|]. simpl.
  (* the upload *)
  unfold add_store, try_except, storbinary, perform. cbn [do_storbinary client].
  unfold m_storbinary.
  rewrite (strip_prefix_app "STOR " full_path), (absolute_nonempty _ Habs).
  unfold resolve. rewrite (join_absolute _ _ Habs). simpl.
  unfold is_dir, is_locked in *. simpl. fold dirname.
  rewrite (bool_decide_false (full_path ∈ {[dirname]} ∪ dirs s)).
  2:{ apply bool_decide_eq_false in Hfdir.
      intros [Heq%elem_of_singleton|Hin]%elem_of_union; done. }
  rewrite Hflock. simpl.
  rewrite (bool_decide_true (dirname ∈ {[dirname]} ∪ dirs s))
    by (apply elem_of_union; left; by apply elem_of_singleton).
  simpl. by eexists.
Qed.

(** X12: once [delete] of an absolute resolved path has returned, the file
    is gone and no other file is touched, and [get] of the same path
    raises: [FileNotFoundError] when the client reports the missing name
    with an [ftplib.Error], the client's own exception otherwise. *)
Theorem delete_then_get_raises :
  ∀ (no_such_file : exn) (self : backend) (relative_path : string)
    (s : server) (resp : string) (s1 : server),
    os_path.startswith_sep (_fullpath self relative_path) = true →
    delete_ (ftplib no_such_file) self relative_path s = (Return resp, s1) →
    files s1 = base.delete (_fullpath self relative_path) (files s) ∧
    dirs s1 = dirs s ∧
    ∃ s2,
      get (ftplib no_such_file) repr self relative_path s1
      = (Raise (if isinstance_ftplib_Error no_such_file
                then FileNotFoundError (repr no_such_file) (Some no_such_file)
                else no_such_file), s2).
Proof.
  intros no_such_file self relative_path s resp s1 Habs Hdel.
  unfold delete_ in Hdel. rewrite ftp_enter_spec in Hdel.
  destruct (ftp_enter (ftplib no_such_file) self s) as [[c|e|] s0] eqn:Henter;
    [|done|done].
  destruct (ftp_enter_memftp _ _ _ _ _ Henter) as (-> & -> & Hlogin).
  unfold with_client, delete, perform in Hdel. cbn [do_delete client do_exit] in Hdel.
  unfold m_delete in Hdel. rewrite (absolute_nonempty _ Habs) in Hdel.
  simpl in Hdel. unfold resolve in Hdel. rewrite (join_absolute _ _ Habs) in Hdel.
  destruct (is_locked _ _); [done|]. destruct (is_file _ _); [|by destruct (is_dir _ _)].
  simplify_eq. simpl. split; [done|]. split; [done|].
  match goal with
  | |- context [get _ _ _ _ ?st] =>
      assert (account st = account s) as Hacc by done;
      pose proof (ftp_enter_memftp_again no_such_file self s _ _ st Henter Hacc)
        as Hagain
  end.
  unfold get. rewrite (ftp_entered _ _ _ _ _ _ Hagain).
  unfold try_except, bind, retrbinary, perform. cbn [do_retrbinary client].
  unfold m_retrbinary.
  rewrite (strip_prefix_app "RETR " _), (absolute_nonempty _ Habs).
  unfold resolve. rewrite (join_absolute _ _ Habs). simpl.
  rewrite lookup_delete_eq.
  destruct (isinstance_ftplib_Error no_such_file); by eexists.
Qed.

(** X13: when the directory of the resolved path is there, [add] enters it
    and the server stores the upload under the name it resolves against
    that directory: the resolved path itself when it is absolute, and a
    path below the entered directory when it is relative. *)
Theorem add_stores_below_the_entered_directory :
  ∀ (no_such_file : exn) (self : backend) (relative_path : string)
    (data : bytes) (fuel : nat) (s : server) c s0,
    let full_path := _fullpath self relative_path in
    let entered := os_path.join (home s) (os_path.dirname full_path) in
    let target := os_path.join entered full_path in
    os_path.nonempty (os_path.dirname full_path) = true →
    ftp_enter (ftplib no_such_file) self s = (Return c, s0) →
    is_dir s entered = true →
    is_dir s target || is_locked s target = false →
    is_dir s (os_path.dirname target) = true →
    (∃ s1,
       add (ftplib no_such_file) repr fuel self relative_path data s = (Return tt, s1) ∧
       files s1 = <[ target := data ]> (files s)) ∧
    (os_path.startswith_sep full_path = true → target = full_path).
Proof.
  intros no_such_file self relative_path data fuel s c s0 full_path entered target
    Hdir Henter Hentered Hfree Hparent.
  split; [|intros Habs; unfold target; by apply join_absolute].
  destruct (ftp_enter_memftp _ _ _ _ _ Henter) as (-> & -> & Hlogin).
  assert (os_path.nonempty full_path = true) as Hfull.
  { destruct full_path; [|done]. by vm_compute in Hdir. }
  unfold add. rewrite (ftp_entered _ _ _ _ _ _ Henter). fold full_path.
  unfold bind, add_chdir. rewrite Hdir.
  unfold try_except at 1. unfold cwd, perform. cbn [do_cwd client].
  unfold m_cwd. rewrite Hdir. simpl. unfold resolve. simpl. fold entered.
  unfold is_dir in *. simpl. rewrite Hentered.
  unfold add_store, try_except, storbinary, perform. cbn [do_storbinary client].
  unfold m_storbinary. rewrite (strip_prefix_app "STOR " full_path), Hfull.
  unfold resolve. simpl. fold target.
  unfold is_dir, is_locked in *. simpl. rewrite Hfree, Hparent. simpl.
  by eexists.
Qed.

End MemftpMore.

Lemma add_makes_the_missing_directory_witness :
  ∃ s1,
    add (memftp.ftplib memftp.enoent) sample.repr 1 sample.plain "a/b.txt"
      [x00; x01] sample.empty_home = (Return tt, s1) ∧
    memftp.dirs s1 = {[ "/home/u/a" ]} ∪ memftp.dirs sample.empty_home ∧
    memftp.files s1 = <[ "/home/u/a/b.txt" := [x00; x01] ]> (memftp.files sample.empty_home).
Proof.
  exact (add_makes_the_missing_directory sample.repr sample.plain "a/b.txt"
           [x00; x01] 0 sample.empty_home _ _ eq_refl eq_refl eq_refl eq_refl eq_refl).
Defined.

Lemma delete_then_get_raises_witness :
  memftp.files (snd (delete_ (memftp.ftplib memftp.error_perm_550) sample.plain
                       "a/x.txt" sample.one_file))
    = base.delete "/home/u/a/x.txt" (memftp.files sample.one_file) ∧
  memftp.dirs (snd (delete_ (memftp.ftplib memftp.error_perm_550) sample.plain
                      "a/x.txt" sample.one_file))
    = memftp.dirs sample.one_file ∧
  ∃ s2,
    get (memftp.ftplib memftp.error_perm_550) sample.repr sample.plain "a/x.txt"
      (snd (delete_ (memftp.ftplib memftp.error_perm_550) sample.plain
              "a/x.txt" sample.one_file))
    = (Raise (FileNotFoundError "error_perm(...)" (Some memftp.error_perm_550)), s2).
Proof.
  exact (delete_then_get_raises sample.repr memftp.error_perm_550 sample.plain
           "a/x.txt" sample.one_file "250 Delete operation successful." _
           eq_refl eq_refl).
Defined.

Lemma add_stores_below_the_entered_directory_witness :
  ∃ s1,
    add (memftp.ftplib memftp.error_perm_550) sample.repr 1 sample.flat "a/b.txt"
      [x01] sample.nested_home = (Return tt, s1) ∧
    memftp.files s1 = <[ "/home/u/a/a/b.txt" := [x01] ]> (memftp.files sample.nested_home).
Proof.
  exact (proj1 (add_stores_below_the_entered_directory sample.repr
           memftp.error_perm_550 sample.flat "a/b.txt" [x01] 1 sample.nested_home
           _ _ eq_refl eq_refl eq_refl eq_refl eq_refl)).
Defined.
